(** * SQL query safety validator and pagination rewriter

    A shallow embedding of [src/tools/query.ts] of the Postgres MCP server
    (the second module of [src/src/tools/schemas.ts] in this tree):
    [validateSqlSafety], [isReadOnlyQuery], [isSingleRowAggregate],
    [applyPagination], [validateParameters] and [queryTool], together with
    the properties the design specification states about them.

    Conventions of the model.
    - SQL text is a [string]; the JavaScript string primitives the code
      uses ([trim], [toUpperCase], [includes], [startsWith], [split] on
      white space, [replace] of trailing semicolons) are defined on the
      ASCII range, where they agree with ECMAScript.
    - Numbers that the code only uses as integers (page size, offset,
      limits, byte counts) are in [Z]; a JavaScript number that may be
      [NaN] or infinite (a bound parameter) keeps that distinction.
    - What lives outside the module is a parameter: the SQL parser
      ([sqlParser.astify]), the request-shape validation
      ([validateInput] with [QueryInputSchema]), the connection pool
      ([pool.query]) and the JSON serializer. *)

From Stdlib Require Import ZArith List Bool Lia.
From Stdlib Require Import Strings.Ascii Strings.String Numbers.DecimalString.
Import ListNotations.

Local Open Scope string_scope.
Local Open Scope Z_scope.

(** ** JavaScript string primitives *)

Module Js.

(** White space of [String.prototype.trim] and of the regular expression
    class [\s], restricted to ASCII: TAB, LF, VT, FF, CR and SPACE. *)
Definition isWhiteSpace (c : ascii) : bool :=
  let n := nat_of_ascii c in
  ((9 <=? n)%nat && (n <=? 13)%nat) || (n =? 32)%nat.

Definition isSemicolon (c : ascii) : bool := Ascii.eqb c ";".

Definition isLower (c : ascii) : bool :=
  let n := nat_of_ascii c in (97 <=? n)%nat && (n <=? 122)%nat.

Definition upperChar (c : ascii) : ascii :=
  if isLower c then ascii_of_nat (nat_of_ascii c - 32) else c.

(** [s.toUpperCase()] *)
Fixpoint toUpperCase (s : string) : string :=
  match s with
  | EmptyString => EmptyString
  | String c r => String (upperChar c) (toUpperCase r)
  end.

(** Removes the longest prefix of characters satisfying [p]. *)
Fixpoint dropStart (p : ascii -> bool) (s : string) : string :=
  match s with
  | EmptyString => EmptyString
  | String c r => if p c then dropStart p r else s
  end.

(** Removes the longest suffix of characters satisfying [p]. *)
Fixpoint dropEnd (p : ascii -> bool) (s : string) : string :=
  match s with
  | EmptyString => EmptyString
  | String c r =>
      match dropEnd p r with
      | EmptyString => if p c then EmptyString else String c EmptyString
      | r' => String c r'
      end
  end.

(** [s.trim()] *)
Definition trim (s : string) : string :=
  dropEnd isWhiteSpace (dropStart isWhiteSpace s).

(** [s.replace(/;+$/, '')]: the only match of [;+$] is the maximal run of
    semicolons that ends the text. *)
Definition stripTrailingSemicolons (s : string) : string :=
  dropEnd isSemicolon s.

(** [s.startsWith(p)] *)
Definition startsWith (s p : string) : bool := String.prefix p s.

(** [s.includes(p)] *)
Fixpoint includes (s p : string) : bool :=
  String.prefix p s ||
  match s with
  | EmptyString => false
  | String _ r => includes r p
  end.

(** [s.split(/\s+/)[0]]: element 0 of the split is the text in front of the
    first run of white space (the whole text when there is none, the empty
    text when the text starts with white space). *)
Fixpoint firstSplitWord (s : string) : string :=
  match s with
  | EmptyString => EmptyString
  | String c r => if isWhiteSpace c then EmptyString else String c (firstSplitWord r)
  end.

(** [`${n}`] for an integer [n]. *)
Definition numberToString (n : Z) : string :=
  NilZero.string_of_int (Z.to_int n).

(** JavaScript truthiness of a string: the empty string is falsy. *)
Definition truthyString (s : string) : bool :=
  match s with EmptyString => false | _ => true end.

End Js.

(** ** Configuration ([config.query] and the [READ_ONLY] switch) *)

Record QueryConfig := mkQueryConfig {
  MAX_PAGE_SIZE : Z;
  DEFAULT_PAGE_SIZE : Z;
  AUTO_LIMIT : bool;
  MAX_PAYLOAD_SIZE : Z
}.

(** The values [loadConfig] produces from an empty environment. *)
Definition defaultConfig : QueryConfig :=
  mkQueryConfig 500 100 true (5 * 1024 * 1024).

(** ** Pagination rewriter *)

Definition isReadOnlyQuery (sqlString : string) : bool :=
  let upperSql := Js.toUpperCase (Js.trim sqlString) in
  Js.startsWith upperSql "SELECT" ||
  Js.startsWith upperSql "WITH" ||
  Js.startsWith upperSql "EXPLAIN".

Definition isSingleRowAggregate (upperSql : string) : bool :=
  let hasAggregates :=
    Js.includes upperSql "COUNT(" ||
    Js.includes upperSql "SUM(" ||
    Js.includes upperSql "AVG(" ||
    Js.includes upperSql "MAX(" ||
    Js.includes upperSql "MIN(" in
  let hasGroupBy := Js.includes upperSql "GROUP BY" in
  hasAggregates && negb hasGroupBy.

Record Pagination := mkPagination {
  sql : string;
  actualPageSize : Z;
  actualOffset : Z
}.

(** [x || d] for an optional integer: [undefined] and [0] are falsy. *)
Definition orElse (x : option Z) (d : Z) : Z :=
  match x with
  | Some n => if n =? 0 then d else n
  | None => d
  end.

(** [!x] for an optional integer. *)
Definition falsy (x : option Z) : bool :=
  match x with
  | Some n => n =? 0
  | None => true
  end.

(** [cleanedSql]: the trimmed text without its trailing semicolons. *)
Definition cleanSql (sqlString : string) : string :=
  Js.stripTrailingSemicolons (Js.trim sqlString).

Definition applyPagination (cfg : QueryConfig) (sqlString : string)
    (pageSize offset : option Z) : Pagination :=
  let cleanedSql := cleanSql sqlString in
  let upperSql := Js.toUpperCase cleanedSql in
  if Js.includes upperSql "LIMIT" || Js.includes upperSql "OFFSET" then
    mkPagination cleanedSql
                 (orElse pageSize (DEFAULT_PAGE_SIZE cfg))
                 (orElse offset 0)
  else
    let actualPageSize :=
      Z.min (orElse pageSize (DEFAULT_PAGE_SIZE cfg)) (MAX_PAGE_SIZE cfg) in
    let actualOffset := orElse offset 0 in
    if isSingleRowAggregate upperSql then
      mkPagination cleanedSql actualPageSize actualOffset
    else if negb (AUTO_LIMIT cfg) && falsy pageSize then
      mkPagination cleanedSql actualPageSize actualOffset
    else
      let paginatedSql :=
        cleanedSql ++ " LIMIT " ++ Js.numberToString actualPageSize in
      let paginatedSql :=
        if 0 <? actualOffset
        then paginatedSql ++ " OFFSET " ++ Js.numberToString actualOffset
        else paginatedSql in
      mkPagination paginatedSql actualPageSize actualOffset.

(** ** Syntax trees, as far as the validator reads them

    [sqlParser.astify] belongs to the [node-sql-parser] package.  A node of
    its tree is a JavaScript object typed [any]; the model keeps exactly
    the properties [validateSqlSafety] reads: [type], [value], [operator],
    [left], [right] and [column] (with [column.expr]). *)

Inductive Value :=
| VUndefined
| VBool (b : bool)
| VNumber (n : Z)
| VString (s : string).

(** [a === b] on primitive values. *)
Definition strictEq (a b : Value) : bool :=
  match a, b with
  | VUndefined, VUndefined => true
  | VBool x, VBool y => Bool.eqb x y
  | VNumber x, VNumber y => x =? y
  | VString x, VString y => String.eqb x y
  | _, _ => false
  end.

(** [x === 'lit'] for a property that may be missing. *)
Definition isStr (x : option string) (lit : string) : bool :=
  match x with
  | Some s => String.eqb s lit
  | None => false
  end.

(** The [type] and [value] of an object. *)
Record Obj := mkObj { otype : option string; ovalue : Value }.

(** What the [column] property of a node holds. *)
Inductive Column :=
| ColAbsent
| ColString (name : string)
| ColObject (expr : option Obj) (self : Obj).

#[warnings="-register-all"] Inductive Expr :=
| Node (type : option string) (value : Value) (operator : option string)
       (left right : option Expr) (column : Column).

Definition exprType (e : Expr) := let 'Node t _ _ _ _ _ := e in t.
Definition exprValue (e : Expr) := let 'Node _ v _ _ _ _ := e in v.
Definition exprOperator (e : Expr) := let 'Node _ _ o _ _ _ := e in o.
Definition exprLeft (e : Expr) := let 'Node _ _ _ l _ _ := e in l.
Definition exprRight (e : Expr) := let 'Node _ _ _ _ r _ := e in r.
Definition exprColumn (e : Expr) := let 'Node _ _ _ _ _ c := e in c.

(** A statement of the parse result: [type] and a truthy [where], if any. *)
Record Statement := mkStatement {
  stype : option string;
  where_ : option Expr
}.

(** The outcome of [sqlParser.astify]: an exception, one tree, or an array
    of trees. *)
Inductive Ast :=
| ParseError
| AstOne (statement : Statement)
| AstArray (statements : list Statement).

(** [left.column?.expr || left.column] *)
Inductive Resolved :=
| RUndefined
| RString (s : string)
| RObject (o : Obj).

Definition resolveColumn (c : Column) : Resolved :=
  match c with
  | ColAbsent => RUndefined
  | ColString s => RString s
  | ColObject (Some e) _ => RObject e
  | ColObject None self => RObject self
  end.

(** ** Policy validator *)

Record SafetyResult := mkSafety { isValid : bool; error : option string }.

Definition valid : SafetyResult := mkSafety true None.
Definition invalid (msg : string) : SafetyResult := mkSafety false (Some msg).

Definition DANGEROUS_OPERATIONS : list string :=
  [ "DROP"; "CREATE"; "ALTER"; "TRUNCATE"; "GRANT"; "REVOKE"; "VACUUM";
    "ANALYZE"; "CLUSTER"; "REINDEX"; "COPY"; "BACKUP"; "RESTORE"; "ATTACH";
    "DETACH"; "PRAGMA" ].

(** [array.includes(x)] *)
Definition arrayIncludes (l : list string) (x : string) : bool :=
  existsb (String.eqb x) l.

(** [array.includes(x)] for [x] that may be [undefined]. *)
Definition arrayIncludesOpt (l : list string) (x : option string) : bool :=
  match x with
  | Some s => arrayIncludes l s
  | None => false
  end.

Definition dangerousError (op : string) : string :=
  "Dangerous operation '" ++ op ++ "' is not allowed".

Definition readOnlyError : string :=
  "Only SELECT, WITH, and EXPLAIN queries are allowed in read-only mode".

Definition missingWhereError (statementType : string) : string :=
  statementType ++ " operations must include a WHERE clause".

Definition trivialWhereError (statementType : string) : string :=
  statementType ++
  " operations cannot use trivial WHERE clauses like WHERE 1=1 or WHERE TRUE".

(** The three tests made on the two sides of an equality. *)
Definition sameNumber (l r : Expr) : bool :=
  isStr (exprType l) "number" && isStr (exprType r) "number" &&
  strictEq (exprValue l) (exprValue r).

Definition sameSingleQuoteString (l r : Expr) : bool :=
  isStr (exprType l) "single_quote_string" &&
  isStr (exprType r) "single_quote_string" &&
  strictEq (exprValue l) (exprValue r).

Definition sameColumn (l r : Expr) : bool :=
  isStr (exprType l) "column_ref" && isStr (exprType r) "column_ref" &&
  match resolveColumn (exprColumn l), resolveColumn (exprColumn r) with
  | RObject lo, RObject ro =>
      isStr (otype lo) "double_quote_string" &&
      isStr (otype ro) "double_quote_string" &&
      strictEq (ovalue lo) (ovalue ro)
  | RString ls, RString rs => String.eqb ls rs
  | _, _ => false
  end.

(** The cascade of tests on [statement.where]. *)
Definition isTrivialWhere (whereClause : Expr) : bool :=
  (isStr (exprType whereClause) "bool" && strictEq (exprValue whereClause) (VBool true))
  || isStr (exprType whereClause) "number"
  || (isStr (exprType whereClause) "binary_expr" && isStr (exprOperator whereClause) "=" &&
      match exprLeft whereClause, exprRight whereClause with
      | Some l, Some r =>
          sameNumber l r || sameSingleQuoteString l r || sameColumn l r
      | _, _ => false
      end).

Section Validator.

(** [isReadOnlyMode()]: the [READ_ONLY] environment variable is not
    ["false"]. *)
Variable readOnlyMode : bool.

(** [sqlParser.astify] *)
Variable astify : string -> Ast.

(** The body of the loop over the statements: the error it returns, if
    any. *)
Definition checkStatement (statement : Statement) : option string :=
  let statementType := option_map Js.toUpperCase (stype statement) in
  if arrayIncludesOpt DANGEROUS_OPERATIONS statementType then
    Some (dangerousError (match statementType with Some t => t | None => "" end))
  else if readOnlyMode then
    if negb (arrayIncludesOpt ["SELECT"; "WITH"; "EXPLAIN"] statementType)
    then Some readOnlyError
    else None
  else
    match statementType with
    | Some t =>
        if String.eqb t "UPDATE" || String.eqb t "DELETE" then
          match where_ statement with
          | None => Some (missingWhereError t)
          | Some whereClause =>
              if isTrivialWhere whereClause then Some (trivialWhereError t)
              else None
          end
        else None
    | None => None
    end.

(** The loop: the first error ends it. *)
Fixpoint checkStatements (statements : list Statement) : SafetyResult :=
  match statements with
  | [] => valid
  | statement :: rest =>
      match checkStatement statement with
      | Some msg => invalid msg
      | None => checkStatements rest
      end
  end.

Definition firstWord (sqlString : string) : string :=
  Js.firstSplitWord (Js.toUpperCase (Js.trim sqlString)).

Definition validateSqlSafety (sqlString : string) : SafetyResult :=
  if negb (Js.truthyString sqlString) then
    invalid "SQL query is required and must be a string"
  else
    let trimmedSql := Js.trim sqlString in
    if negb (Js.truthyString trimmedSql) then
      invalid "SQL query cannot be empty"
    else
      let firstWord := firstWord sqlString in
      if arrayIncludes DANGEROUS_OPERATIONS firstWord then
        invalid (dangerousError firstWord)
      else if String.eqb firstWord "EXPLAIN" then valid
      else if String.eqb firstWord "MERGE" || String.eqb firstWord "UPSERT" then
        if readOnlyMode then invalid readOnlyError
        else invalid "MERGE and UPSERT operations are not currently supported"
      else
        match astify trimmedSql with
        | ParseError => invalid "Invalid SQL syntax - unable to parse query"
        | AstOne statement => checkStatements [statement]
        | AstArray statements => checkStatements statements
        end.

End Validator.

(** ** Parameter sanitizer *)

(** A JavaScript number: a finite double [mantissa * 2^exponent], [NaN], or
    an infinity. *)
Inductive JsNumber :=
| Finite (mantissa exponent : Z)
| NaN
| PosInfinity
| NegInfinity.

Definition isFinite (n : JsNumber) : bool :=
  match n with
  | Finite _ _ => true
  | _ => false
  end.

(** The values a caller can put in the [parameters] array. *)
#[warnings="-register-all"] Inductive JsValue :=
| JNull
| JUndefined
| JBoolean (b : bool)
| JNumber (n : JsNumber)
| JString (s : string)
| JBigInt (n : Z)
| JSymbol (description : string)
| JObject (properties : list (string * JsValue))
| JArray (items : list JsValue)
| JFunction (name : string).

(** [typeof v] *)
Definition typeOf (v : JsValue) : string :=
  match v with
  | JNull => "object"
  | JUndefined => "undefined"
  | JBoolean _ => "boolean"
  | JNumber _ => "number"
  | JString _ => "string"
  | JBigInt _ => "bigint"
  | JSymbol _ => "symbol"
  | JObject _ => "object"
  | JArray _ => "object"
  | JFunction _ => "function"
  end.

Definition isNull (v : JsValue) : bool :=
  match v with
  | JNull => true
  | _ => false
  end.

Definition parameterTypeError : string :=
  "Invalid parameter type - only string, number, boolean, and null are allowed".

Definition parameterFiniteError : string :=
  "Invalid numeric parameter - must be finite number".

(** The body of the loop of [validateParameters]. *)
Definition checkParameter (param : JsValue) : option string :=
  if negb (isNull param) &&
     negb (String.eqb (typeOf param) "string") &&
     negb (String.eqb (typeOf param) "number") &&
     negb (String.eqb (typeOf param) "boolean")
  then Some parameterTypeError
  else
    match param with
    | JNumber n => if negb (isFinite n) then Some parameterFiniteError else None
    | _ => None
    end.

(** [validateParameters]: [Some msg] is [{ error: msg }], [None] is [null]. *)
Fixpoint validateParameters (parameters : list JsValue) : option string :=
  match parameters with
  | [] => None
  | param :: rest =>
      match checkParameter param with
      | Some msg => Some msg
      | None => validateParameters rest
      end
  end.

(** ** Result governor and the query tool *)

Record PageInfo := mkPageInfo {
  hasMore : bool;
  pageSize : Z;
  offset : Z
}.

(** [x.toFixed(2)] for [x = bytes / (1024 * 1024)].  The quotient of an
    integer below [2^53] by [2^20] is exact in a double, and [toFixed]
    rounds the exact value to the nearest hundredth, the larger one on a
    tie; so the result is computed here on integers. *)
Definition twoDigits (d : Z) : string :=
  Js.numberToString (d / 10) ++ Js.numberToString (d mod 10).

Definition megabytes (bytes : Z) : string :=
  let a := Z.abs bytes in
  let hundredths := (200 * a + 1048576) / 2097152 in
  (if bytes <? 0 then "-" else "") ++
  Js.numberToString (hundredths / 100) ++ "." ++ twoDigits (hundredths mod 100).

Definition payloadError (payloadSize maxPayloadSize : Z) : string :=
  "Query result payload (" ++ megabytes payloadSize ++
  "MB) exceeds maximum allowed size (" ++ megabytes maxPayloadSize ++
  "MB). Please reduce pageSize or add more specific WHERE conditions to limit results.".

(** [s.replace(/\s+/g, " ")]: [inRun] tells that the previous character was
    white space. *)
Fixpoint collapseWhiteSpace (inRun : bool) (s : string) : string :=
  match s with
  | EmptyString => EmptyString
  | String c r =>
      if Js.isWhiteSpace c
      then if inRun then collapseWhiteSpace true r
           else String " " (collapseWhiteSpace true r)
      else String c (collapseWhiteSpace false r)
  end.

(** What a rejected [pool.query] throws. *)
Record Thrown := mkThrown {
  isError : bool;            (* [error instanceof Error] *)
  message : string;
  pgCode : option string;
  pgHint : option string
}.

(** The request after [validateInput(QueryInputSchema, input)] accepted
    it. *)
Record QueryInput := mkQueryInput {
  inSql : string;
  inParameters : option (list JsValue);
  inPageSize : option Z;
  inOffset : option Z
}.

(** [validatedInput.parameters ?? []] *)
Definition paramsOf (validatedInput : QueryInput) : list JsValue :=
  match inParameters validatedInput with
  | Some ps => ps
  | None => []
  end.

(** A call of [pool.query]: the text and, when the parameter array is not
    empty, the parameters. *)
Definition GatewayCall : Type := string * option (list JsValue).

(** [params.length > 0 ? pool.query(text, params) : pool.query(text)] *)
Definition gatewayCall (params : list JsValue) (text : string) : GatewayCall :=
  if (0 <? List.length params)%nat then (text, Some params) else (text, None).

Section QueryTool.

Variable cfg : QueryConfig.
Variable readOnlyMode : bool.
Variable astify : string -> Ast.

(** A row of a result set, and the byte length of the serialized rows:
    [Buffer.byteLength(JSON.stringify(rows), 'utf8')]. *)
Variable Row : Type.
Variable payloadByteLength : list Row -> Z.

Record QueryOutput := mkOutput {
  rows : option (list Row);
  rowCount : option Z;
  pagination : option PageInfo;
  outError : option string;
  code : option string;
  hint : option string
}.

Definition errorOutput (msg : option string) : QueryOutput :=
  mkOutput None None None msg None None.

(** [validateInput(QueryInputSchema, _)] of [validation.ts], on a raw
    input of any type: the accepted data or an error text. *)
Variable RawInput : Type.
Variable validateInput : RawInput -> QueryInput + string.

Record QueryResult := mkQueryResult {
  resultRows : list Row;
  resultRowCount : option Z
}.

(** [pool.query]: the result, or what it throws. *)
Variable poolQuery : GatewayCall -> QueryResult + Thrown.

(** The [catch] block. *)
Definition catchOutput (e : Thrown) : QueryOutput :=
  let errorMessage :=
    if isError e then message e else "Unknown error occurred" in
  let errorCode :=
    match pgCode e with
    | Some c => if Js.truthyString c then c else "UNKNOWN"
    | None => "UNKNOWN"
    end in
  let sanitizedError := Js.trim (collapseWhiteSpace false errorMessage) in
  mkOutput None None None (Some sanitizedError) (Some errorCode) (pgHint e).

(** [queryTool]: the output, and the calls made to the execution
    gateway, in order. *)
Definition queryTool (input : RawInput) : QueryOutput * list GatewayCall :=
  match validateInput input with
  | inr msg => (errorOutput (Some ("Input validation failed: " ++ msg)), [])
  | inl validatedInput =>
      let sqlValidation :=
        validateSqlSafety readOnlyMode astify (inSql validatedInput) in
      if negb (isValid sqlValidation) then
        (errorOutput (error sqlValidation), [])
      else
        let trimmedSql := Js.trim (inSql validatedInput) in
        let params := paramsOf validatedInput in
        match (if (0 <? List.length params)%nat
               then validateParameters params else None) with
        | Some paramError => (errorOutput (Some paramError), [])
        | None =>
            let call := gatewayCall params in
            if isReadOnlyQuery trimmedSql then
              let p := applyPagination cfg trimmedSql
                         (inPageSize validatedInput) (inOffset validatedInput) in
              match poolQuery (call (sql p)) with
              | inr e => (catchOutput e, [call (sql p)])
              | inl result =>
                  let payloadSize := payloadByteLength (resultRows result) in
                  if MAX_PAYLOAD_SIZE cfg <? payloadSize then
                    (errorOutput
                       (Some (payloadError payloadSize (MAX_PAYLOAD_SIZE cfg))),
                     [call (sql p)])
                  else
                    let n := Z.of_nat (List.length (resultRows result)) in
                    (mkOutput (Some (resultRows result)) (Some n)
                       (Some (mkPageInfo (n =? actualPageSize p)
                                (actualPageSize p) (actualOffset p)))
                       None None None,
                     [call (sql p)])
              end
            else
              let cleanedSql := Js.stripTrailingSemicolons trimmedSql in
              match poolQuery (call cleanedSql) with
              | inr e => (catchOutput e, [call cleanedSql])
              | inl result =>
                  (mkOutput None
                     (Some (match resultRowCount result with
                            | Some n => n
                            | None => 0
                            end))
                     None None None None,
                   [call cleanedSql])
              end
        end
  end.

End QueryTool.

Arguments mkOutput {Row} rows rowCount pagination outError code hint.
Arguments rows {Row} _.
Arguments rowCount {Row} _.
Arguments pagination {Row} _.
Arguments outError {Row} _.
Arguments code {Row} _.
Arguments hint {Row} _.
Arguments errorOutput {Row} msg.
Arguments mkQueryResult {Row} resultRows resultRowCount.
Arguments resultRows {Row} _.
Arguments resultRowCount {Row} _.
Arguments catchOutput {Row} e.
Arguments queryTool cfg readOnlyMode astify {Row} payloadByteLength
  {RawInput} validateInput poolQuery input.

(** ** Vocabulary of the specification *)

(** Every character of [s] satisfies [f]. *)
Fixpoint allChars (f : ascii -> bool) (s : string) : bool :=
  match s with
  | EmptyString => true
  | String c r => f c && allChars f r
  end.

(** [x ?? d] for an optional integer. *)
Definition nullish (x : option Z) (d : Z) : Z :=
  match x with
  | Some n => n
  | None => d
  end.

(** The effective page size of the specification:
    [min(requestedPageSize ?? DEFAULT_PAGE_SIZE, MAX_PAGE_SIZE)]. *)
Definition effectivePageSize (cfg : QueryConfig) (requested : option Z) : Z :=
  Z.min (nullish requested (DEFAULT_PAGE_SIZE cfg)) (MAX_PAGE_SIZE cfg).

(** The uppercased text holds a limiting or a skip keyword. *)
Definition mentionsLimit (sqlString : string) : bool :=
  Js.includes (Js.toUpperCase sqlString) "LIMIT" ||
  Js.includes (Js.toUpperCase sqlString) "OFFSET".

(** The configuration of the test "should cap page size at maximum when
    environment allows higher": [MAX_PAGE_SIZE=200]. *)
Definition cappedConfig : QueryConfig :=
  mkQueryConfig 200 100 true (5 * 1024 * 1024).

(** The request gets as far as the structural parser: the trimmed text is
    not empty and its leading word is neither a dangerous operation nor one
    of the keywords handled without parsing. *)
Definition ReachesParser (sqlString : string) : Prop :=
  Js.trim sqlString <> "" /\
  ~ In (firstWord sqlString) DANGEROUS_OPERATIONS /\
  firstWord sqlString <> "EXPLAIN" /\
  firstWord sqlString <> "MERGE" /\
  firstWord sqlString <> "UPSERT".

(** A statement passes the body of the validator's loop. *)
Definition passes (readOnlyMode : bool) (statement : Statement) : Prop :=
  checkStatement readOnlyMode statement = None.

(** The pairs of sides the validator's three tests on an equality detect:
    two nodes of type [number] with the same value, two nodes of type
    [single_quote_string] with the same value, two nodes of type
    [column_ref] whose [column] resolves to objects of type
    [double_quote_string] with the same value, or to the same plain
    string.  A column held as an object of another type (the [default] of
    an unquoted name) is in none of these. *)
Inductive DetectedSides (l r : Expr) : Prop :=
| DetectedNumbers :
    exprType l = Some "number" -> exprType r = Some "number" ->
    exprValue l = exprValue r -> DetectedSides l r
| DetectedSingleQuoteStrings :
    exprType l = Some "single_quote_string" ->
    exprType r = Some "single_quote_string" ->
    exprValue l = exprValue r -> DetectedSides l r
| DetectedQuotedIdentifiers (v : Value) :
    exprType l = Some "column_ref" -> exprType r = Some "column_ref" ->
    resolveColumn (exprColumn l) = RObject (mkObj (Some "double_quote_string") v) ->
    resolveColumn (exprColumn r) = RObject (mkObj (Some "double_quote_string") v) ->
    DetectedSides l r
| DetectedColumnStrings (name : string) :
    exprType l = Some "column_ref" -> exprType r = Some "column_ref" ->
    resolveColumn (exprColumn l) = RString name ->
    resolveColumn (exprColumn r) = RString name ->
    DetectedSides l r.

(** The WHERE clauses the validator detects as trivial: a node of type
    [bool] with value [true], a node of type [number], a [binary_expr]
    with operator [=] between detected sides. *)
Inductive DetectedTrivial (w : Expr) : Prop :=
| DetectedTrue :
    exprType w = Some "bool" -> exprValue w = VBool true -> DetectedTrivial w
| DetectedNumber :
    exprType w = Some "number" -> DetectedTrivial w
| DetectedEquality (l r : Expr) :
    exprType w = Some "binary_expr" -> exprOperator w = Some "=" ->
    exprLeft w = Some l -> exprRight w = Some r ->
    DetectedSides l r -> DetectedTrivial w.

(** [text] is the decimal text, with two places, of the whole number of
    hundredths of a megabyte nearest to [bytes] bytes, the larger one on a
    tie. *)
Definition isMegabyteText (bytes : Z) (text : string) : Prop :=
  exists hundredths,
    2097152 * hundredths <= 200 * bytes + 1048576 < 2097152 * (hundredths + 1) /\
    text = Js.numberToString (hundredths / 100) ++ "." ++
           Js.numberToString (hundredths mod 100 / 10) ++
           Js.numberToString (hundredths mod 10).

(** The scalars of the data model: null, a boolean, a finite number, a
    string. *)
Definition isScalar (v : JsValue) : bool :=
  match v with
  | JNull | JBoolean _ | JString _ => true
  | JNumber n => isFinite n
  | _ => false
  end.

(** *** Trees for the examples

    The trees [node-sql-parser] builds for a few statements, with the
    properties the validator reads; every other text is a parse error. *)

Definition leaf (type : string) (value : Value) : Expr :=
  Node (Some type) value None None None ColAbsent.

Definition columnRef (name : string) : Expr :=
  Node (Some "column_ref") VUndefined None None None
       (ColObject (Some (mkObj (Some "default") (VString name)))
                  (mkObj None VUndefined)).

Definition equality (l r : Expr) : Expr :=
  Node (Some "binary_expr") VUndefined (Some "=") (Some l) (Some r) ColAbsent.

Definition selectStatement : Statement := mkStatement (Some "select") None.

Definition exampleAstify (text : string) : Ast :=
  if String.eqb text "SELECT * FROM users" then AstOne selectStatement
  else if String.eqb text "SELECT 1; SELECT 2" then
    AstArray [selectStatement; selectStatement]
  else if String.eqb text "SELECT 1; DELETE FROM t WHERE id = 1" then
    AstArray [selectStatement;
              mkStatement (Some "delete")
                (Some (equality (columnRef "id") (leaf "number" (VNumber 1))))]
  else if String.eqb text "UPDATE users SET age=30" then
    AstOne (mkStatement (Some "update") None)
  else if String.eqb text "UPDATE users SET age=30 WHERE 1=1" then
    AstOne (mkStatement (Some "update")
              (Some (equality (leaf "number" (VNumber 1))
                              (leaf "number" (VNumber 1)))))
  else if String.eqb text "DELETE FROM users WHERE id = 123" then
    AstOne (mkStatement (Some "delete")
              (Some (equality (columnRef "id") (leaf "number" (VNumber 123)))))
  else ParseError.

(** The tree for a DELETE whose WHERE clause compares a column with
    itself, the column being written without quotes. *)
Definition selfComparisonAstify (text : string) : Ast :=
  if String.eqb text "DELETE FROM users WHERE id = id" then
    AstOne (mkStatement (Some "delete")
              (Some (equality (columnRef "id") (columnRef "id"))))
  else ParseError.

(** *** An execution gateway for the examples

    Requests that are already of the accepted shape, a pool that answers
    every call with the same two rows, rows that serialize to ten bytes
    each, and a payload limit of fifteen bytes. *)

Definition exampleValidateInput (input : QueryInput) : QueryInput + string :=
  inl input.

Definition examplePool (call : GatewayCall) : QueryResult Z + Thrown :=
  inl (mkQueryResult [1; 2] (Some 2)).

Definition examplePayload (rows : list Z) : Z := 10 * Z.of_nat (List.length rows).

Definition tinyPayloadConfig : QueryConfig := mkQueryConfig 500 100 true 15.

(** Rows that serialize to three million bytes each. *)
Definition heavyPayload (rows : list Z) : Z := 3000000 * Z.of_nat (List.length rows).

(** ** The environment switch of the validator

    [isReadOnlyMode] of [query.ts] reads [process.env.READ_ONLY] on every
    call; the environment is a map from names to values that may be
    undefined. *)

Definition Env : Type := string -> option string.

(** [x !== 'lit'] for a value that may be undefined. *)
Definition isNotStr (x : option string) (lit : string) : bool :=
  negb (isStr x lit).

Definition isReadOnlyMode (env : Env) : bool :=
  isNotStr (env "READ_ONLY") "false".

(** ** The EXPLAIN tool ([explainQueryTool] of [src/tools/performance.ts]) *)

(** The request after [validateInput(ExplainQueryInputSchema, input)]
    accepted it. *)
Record ExplainInput := mkExplainInput {
  exSql : string;
  exAnalyze : option bool;
  exBuffers : option bool;
  exCosts : option bool;
  exFormat : option string
}.

(** Truthiness of a boolean that may be undefined. *)
Definition truthyBool (x : option bool) : bool :=
  match x with
  | Some b => b
  | None => false
  end.

(** [x !== false] for a boolean that may be undefined. *)
Definition notFalse (x : option bool) : bool :=
  match x with
  | Some false => false
  | _ => true
  end.

(** [array.join(sep)] *)
Fixpoint join (sep : string) (items : list string) : string :=
  match items with
  | [] => EmptyString
  | [x] => x
  | x :: rest => x ++ sep ++ join sep rest
  end.

(** The safety check on the trimmed, uppercased text. *)
Definition explainForbidden (sqlString : string) : bool :=
  let trimmedSql := Js.toUpperCase (Js.trim sqlString) in
  Js.includes trimmedSql "INSERT" ||
  Js.includes trimmedSql "UPDATE" ||
  Js.includes trimmedSql "DELETE" ||
  Js.includes trimmedSql "DROP" ||
  Js.includes trimmedSql "CREATE" ||
  Js.includes trimmedSql "ALTER" ||
  Js.includes trimmedSql "TRUNCATE".

Definition validFormats : list string := ["TEXT"; "JSON"; "XML"; "YAML"].

(** The [options] array after the four conditional [push]es. *)
Definition explainOptions (validatedInput : ExplainInput) : list string :=
  ((if truthyBool (exAnalyze validatedInput) then ["ANALYZE true"] else []) ++
   (if truthyBool (exBuffers validatedInput) then ["BUFFERS true"] else []) ++
   (if notFalse (exCosts validatedInput) then ["COSTS true"] else []) ++
   (match exFormat validatedInput with
    | Some format =>
        if Js.truthyString format then
          let upperFormat := Js.toUpperCase format in
          if arrayIncludes validFormats upperFormat
          then [("FORMAT " ++ upperFormat)%string]
          else []
        else []
    | None => []
    end))%list.

Definition explainOptionsStr (validatedInput : ExplainInput) : string :=
  let options := explainOptions validatedInput in
  if (0 <? List.length options)%nat
  then "(" ++ join ", " options ++ ")"
  else "".

Definition explainSql (validatedInput : ExplainInput) : string :=
  "EXPLAIN " ++ explainOptionsStr validatedInput ++ " " ++ exSql validatedInput.

Section ExplainTool.

Variable Row : Type.
Variable RawInput : Type.

(** [validateInput(ExplainQueryInputSchema, _)] of [validation.ts]. *)
Variable validateExplainInput : RawInput -> ExplainInput + string.

(** [pool.query]: the result, or what it throws. *)
Variable poolQuery : GatewayCall -> QueryResult Row + Thrown.

Record ExplainOutput := mkExplainOutput {
  plan : option (list Row);
  explainError : option string
}.

(** [explainQueryTool]: the output, and the calls made to the execution
    gateway. *)
Definition explainQueryTool (input : RawInput) : ExplainOutput * list GatewayCall :=
  match validateExplainInput input with
  | inr msg =>
      (mkExplainOutput None (Some ("Input validation failed: " ++ msg)), [])
  | inl validatedInput =>
      if explainForbidden (exSql validatedInput) then
        (mkExplainOutput None
           (Some "EXPLAIN is only allowed for SELECT queries and read-only operations"),
         [])
      else
        let call : GatewayCall := (explainSql validatedInput, None) in
        match poolQuery call with
        | inr e =>
            (mkExplainOutput None
               (Some (if isError e then message e else "Unknown error occurred")),
             [call])
        | inl result => (mkExplainOutput (Some (resultRows result)) None, [call])
        end
  end.

End ExplainTool.

Arguments mkExplainOutput {Row} plan explainError.
Arguments plan {Row} _.
Arguments explainError {Row} _.
Arguments explainQueryTool {Row RawInput} validateExplainInput poolQuery input.

(** ** The tool wrapper ([wrapTool] of [src/register-tools.ts])

    The value the wrapped tool returns.  The log lines it writes carry a
    measured duration and are left out; the serializer
    [JSON.stringify(result, null, 2)] is a parameter. *)

Record ToolResponse := mkToolResponse {
  responseText : string;       (* [content[0].text] *)
  responseIsError : bool       (* [isError] is [true]; absent otherwise *)
}.

(** Truthiness of [result.error]. *)
Definition truthyError (e : option string) : bool :=
  match e with
  | Some msg => Js.truthyString msg
  | None => false
  end.

Definition wrapTool {Result : Type} (errorOf : Result -> option string)
    (stringify : Result -> string) (result : Result) : ToolResponse :=
  if truthyError (errorOf result) then
    mkToolResponse
      ("Error: " ++ match errorOf result with Some msg => msg | None => "" end)
      true
  else mkToolResponse (stringify result) false.

(** ** Allowed hosts of the HTTP server ([src/http-server.ts])

    [allowedHostsEnv ? allowedHostsEnv.split(',').map(h => h.trim())
                     : undefined] *)

(** [s.split(sep)] for a separator of one character. *)
Fixpoint splitOn (sep : ascii) (s : string) : list string :=
  match s with
  | EmptyString => [EmptyString]
  | String c r =>
      if Ascii.eqb c sep then EmptyString :: splitOn sep r
      else match splitOn sep r with
           | [] => [String c EmptyString]
           | w :: ws => String c w :: ws
           end
  end.

Definition allowedHosts (allowedHostsEnv : option string) : option (list string) :=
  match allowedHostsEnv with
  | Some s => if Js.truthyString s then Some (map Js.trim (splitOn "," s)) else None
  | None => None
  end.

(** ** Further vocabulary *)

(** The statement types read-only mode lets through. *)
Definition readOnlyType (statement : Statement) : Prop :=
  exists t, option_map Js.toUpperCase (stype statement) = Some t /\
            In t ["SELECT"; "WITH"; "EXPLAIN"].

(** What read-write mode asks of a statement: its type is no dangerous
    operation, and an UPDATE or DELETE has a WHERE clause that the
    validator does not detect as trivial. *)
Definition writeSafe (statement : Statement) : Prop :=
  (forall t, option_map Js.toUpperCase (stype statement) = Some t ->
             ~ In t DANGEROUS_OPERATIONS) /\
  (forall t, option_map Js.toUpperCase (stype statement) = Some t ->
             t = "UPDATE" \/ t = "DELETE" ->
             exists w, where_ statement = Some w /\ ~ DetectedTrivial w).

(** The statements of a parse result. *)
Definition statementsOf (ast : Ast) : option (list Statement) :=
  match ast with
  | ParseError => None
  | AstOne statement => Some [statement]
  | AstArray statements => Some statements
  end.

(** The last character of a text, if any. *)
Fixpoint lastChar (s : string) : option ascii :=
  match s with
  | EmptyString => None
  | String c EmptyString => Some c
  | String _ r => lastChar r
  end.

(** The first character of a text, if any. *)
Definition firstChar (s : string) : option ascii :=
  match s with
  | EmptyString => None
  | String c _ => Some c
  end.

(** [c] is not white space, or it is the space character. *)
Definition plainChar (c : ascii) : bool :=
  negb (Js.isWhiteSpace c) || Ascii.eqb c " ".

(** The number of occurrences of a character. *)
Fixpoint countChar (c : ascii) (s : string) : nat :=
  match s with
  | EmptyString => 0%nat
  | String d r => ((if Ascii.eqb d c then 1 else 0) + countChar c r)%nat
  end.

(** A decimal digit. *)
Definition isDigit (c : ascii) : bool :=
  let n := nat_of_ascii c in (48 <=? n)%nat && (n <=? 57)%nat.

(** A letter, a space, a comma or a parenthesis: the characters of the
    option list of an EXPLAIN statement. *)
Definition optionChar (c : ascii) : bool :=
  let n := nat_of_ascii c in
  ((65 <=? n)%nat && (n <=? 90)%nat) || ((97 <=? n)%nat && (n <=? 122)%nat) ||
  Ascii.eqb c " " || Ascii.eqb c "," || Ascii.eqb c "(" || Ascii.eqb c ")".

(** An environment for the examples: [READ_ONLY=0], nothing else set. *)
Definition exampleEnv : Env :=
  fun name => if String.eqb name "READ_ONLY" then Some "0" else None.

(** Requests to the EXPLAIN tool that are already of the accepted shape. *)
Definition exampleValidateExplain (input : ExplainInput) : ExplainInput + string :=
  inl input.

(** A pool that rejects every call with the same error. *)
Definition failingPool (call : GatewayCall) : QueryResult Z + Thrown :=
  inr (mkThrown true "relation  does
 not exist " None None).

(** * Properties *)

(** ** Facts about the string primitives *)

Module JsFacts.

Import Js.

Lemma append_assoc (a b c : string) : (a ++ b) ++ c = a ++ (b ++ c).
Proof.
  induction a as [|x a IH]; simpl; [reflexivity | now rewrite IH].
Qed.

Lemma append_cons_not_empty (a : string) (c : ascii) (b : string) :
  a ++ String c b <> EmptyString.
Proof. destruct a; discriminate. Qed.

Lemma prefix_spec (p s : string) :
  String.prefix p s = true <-> exists b, s = p ++ b.
Proof.
  revert s; induction p as [|x p IH]; intros s; simpl.
  - split; [intros _; now exists s | intros _; now destruct s].
  - destruct s as [|y s].
    + split; [discriminate | intros [b Hb]; discriminate].
    + simpl. destruct (Ascii.ascii_dec x y) as [->|Hne].
      * rewrite IH. split; intros [b Hb]; exists b.
        -- now rewrite Hb.
        -- now injection Hb.
      * split; [discriminate | intros [b Hb]; injection Hb; congruence].
Qed.

Lemma includes_spec (s p : string) :
  includes s p = true <-> exists a b, s = a ++ p ++ b.
Proof.
  induction s as [|x s IH].
  - cbn [includes]. rewrite orb_false_r, prefix_spec. split.
    + intros [b Hb]. now exists EmptyString, b.
    + intros [a [b Hab]]. destruct a; [now exists b | discriminate].
  - cbn [includes]. rewrite orb_true_iff, prefix_spec, IH. split.
    + intros [[b Hb] | [a [b Hab]]].
      * now exists EmptyString, b.
      * exists (String x a), b. simpl. now rewrite Hab.
    + intros [a [b Hab]]. destruct a as [|y a].
      * left. now exists b.
      * right. simpl in Hab. injection Hab as _ Hs. now exists a, b.
Qed.

Lemma includes_middle (a p b : string) : includes (a ++ p ++ b) p = true.
Proof. apply includes_spec. now exists a, b. Qed.

(** [dropStart] never eats into an occurrence whose first character is
    kept. *)
Lemma includes_dropStart (f : ascii -> bool) (c : ascii) (p s : string) :
  f c = false ->
  includes s (String c p) = true ->
  includes (dropStart f s) (String c p) = true.
Proof.
  intros Hc. induction s as [|x s IH]; intros H; [exact H|].
  simpl dropStart. destruct (f x) eqn:Hx; [|exact H].
  apply IH. cbn [includes] in H. apply orb_true_iff in H.
  destruct H as [H|H]; [|exact H].
  simpl in H. destruct (Ascii.ascii_dec c x) as [->|]; congruence.
Qed.

Lemma dropEnd_keep (f : ascii -> bool) (a : string) (c : ascii) (b : string) :
  f c = false ->
  dropEnd f (a ++ String c b) = a ++ String c (dropEnd f b).
Proof.
  intros Hc. induction a as [|x a IH]; simpl.
  - rewrite Hc. now destruct (dropEnd f b).
  - rewrite IH. destruct (a ++ String c (dropEnd f b)) eqn:E; [|reflexivity].
    now apply append_cons_not_empty in E.
Qed.

(** [dropEnd] never eats into an occurrence whose last character is
    kept. *)
Lemma includes_dropEnd (f : ascii -> bool) (p : string) (c : ascii) (s : string) :
  f c = false ->
  includes s (p ++ String c EmptyString) = true ->
  includes (dropEnd f s) (p ++ String c EmptyString) = true.
Proof.
  intros Hc H. apply includes_spec in H. destruct H as [a [b ->]].
  rewrite append_assoc. simpl.
  rewrite <- (append_assoc a p). rewrite dropEnd_keep by exact Hc.
  rewrite (append_assoc a p).
  change (String c (dropEnd f b)) with (String c EmptyString ++ dropEnd f b).
  rewrite <- (append_assoc p). apply includes_middle.
Qed.

Lemma isWhiteSpace_upperChar (c : ascii) :
  isWhiteSpace (upperChar c) = isWhiteSpace c.
Proof. destruct c as [[] [] [] [] [] [] [] []]; reflexivity. Qed.

Lemma isSemicolon_upperChar (c : ascii) :
  isSemicolon (upperChar c) = isSemicolon c.
Proof. destruct c as [[] [] [] [] [] [] [] []]; reflexivity. Qed.

Section UpperCommutes.

Variable f : ascii -> bool.
Hypothesis f_upper : forall c, f (upperChar c) = f c.

Lemma toUpperCase_dropStart (s : string) :
  toUpperCase (dropStart f s) = dropStart f (toUpperCase s).
Proof.
  induction s as [|x s IH]; simpl; [reflexivity|].
  rewrite f_upper. now destruct (f x).
Qed.

Lemma toUpperCase_dropEnd (s : string) :
  toUpperCase (dropEnd f s) = dropEnd f (toUpperCase s).
Proof.
  induction s as [|x s IH]; simpl; [reflexivity|].
  rewrite <- IH, f_upper.
  destruct (dropEnd f s); simpl; [now destruct (f x) | reflexivity].
Qed.

End UpperCommutes.

Lemma toUpperCase_trim (s : string) : toUpperCase (trim s) = trim (toUpperCase s).
Proof.
  unfold trim.
  rewrite toUpperCase_dropEnd by apply isWhiteSpace_upperChar.
  now rewrite toUpperCase_dropStart by apply isWhiteSpace_upperChar.
Qed.

End JsFacts.

(** ** The pagination rewriter *)

Module PaginationFacts.

Import Js JsFacts.

Lemma dropStart_split (f : ascii -> bool) (s : string) :
  exists pre, s = pre ++ dropStart f s /\ allChars f pre = true.
Proof.
  induction s as [|x s [pre [IH Hpre]]].
  - now exists EmptyString.
  - simpl. destruct (f x) eqn:Hx.
    + exists (String x pre). simpl. rewrite Hx, Hpre. split; [now f_equal | reflexivity].
    + now exists EmptyString.
Qed.

Lemma dropEnd_split (f : ascii -> bool) (s : string) :
  exists post, s = dropEnd f s ++ post /\ allChars f post = true.
Proof.
  induction s as [|x s [post [IH Hpost]]].
  - now exists EmptyString.
  - simpl. destruct (dropEnd f s) as [|y r] eqn:E.
    + destruct (f x) eqn:Hx.
      * exists (String x post). simpl. rewrite Hx, Hpost.
        split; [now rewrite IH at 1 | reflexivity].
      * exists post. simpl. split; [now rewrite IH at 1 | exact Hpost].
    + exists post. split; [|exact Hpost]. simpl. now rewrite IH at 1.
Qed.

Lemma allChars_app (f : ascii -> bool) (a b : string) :
  allChars f (a ++ b) = allChars f a && allChars f b.
Proof.
  induction a as [|x a IH]; simpl; [reflexivity|].
  now rewrite IH, andb_assoc.
Qed.

Lemma allChars_weaken (f g : ascii -> bool) (s : string) :
  (forall c, f c = true -> g c = true) ->
  allChars f s = true -> allChars g s = true.
Proof.
  intros Hfg. induction s as [|x s IH]; simpl; [reflexivity|].
  intros H. apply andb_true_iff in H. destruct H as [Hx Hs].
  now rewrite (Hfg _ Hx), IH.
Qed.

(** Whatever [dropStart] or [dropEnd] leave was part of the text. *)
Lemma includes_of_dropStart (f : ascii -> bool) (s p : string) :
  includes (dropStart f s) p = true -> includes s p = true.
Proof.
  intros H. apply includes_spec in H. destruct H as [a [b Hab]].
  destruct (dropStart_split f s) as [pre [Hs _]].
  apply includes_spec. exists (pre ++ a), b.
  now rewrite append_assoc, <- Hab.
Qed.

Lemma includes_of_dropEnd (f : ascii -> bool) (s p : string) :
  includes (dropEnd f s) p = true -> includes s p = true.
Proof.
  intros H. apply includes_spec in H. destruct H as [a [b Hab]].
  destruct (dropEnd_split f s) as [post [Hs _]].
  apply includes_spec. exists a, (b ++ post).
  rewrite Hs, Hab. now rewrite !append_assoc.
Qed.

Lemma toUpperCase_cleanSql (s : string) :
  toUpperCase (cleanSql s) =
  dropEnd isSemicolon (dropEnd isWhiteSpace (dropStart isWhiteSpace (toUpperCase s))).
Proof.
  unfold cleanSql, stripTrailingSemicolons.
  rewrite toUpperCase_dropEnd by apply isSemicolon_upperChar.
  now rewrite toUpperCase_trim.
Qed.

(** A keyword that neither starts with white space nor ends with white
    space or a semicolon is in the cleaned text exactly when it is in the
    whole text. *)
Lemma includes_cleanSql (c : ascii) (mid : string) (d : ascii) (s : string) :
  isWhiteSpace c = false -> isWhiteSpace d = false -> isSemicolon d = false ->
  includes (toUpperCase (cleanSql s)) (String c (mid ++ String d EmptyString)) =
  includes (toUpperCase s) (String c (mid ++ String d EmptyString)).
Proof.
  intros Hc Hd Hd'. rewrite toUpperCase_cleanSql.
  apply eq_true_iff_eq. split; intros H.
  - apply includes_of_dropEnd, includes_of_dropEnd, includes_of_dropStart in H.
    exact H.
  - change (String c (mid ++ String d EmptyString))
      with (String c mid ++ String d EmptyString).
    apply includes_dropEnd; [exact Hd'|].
    apply includes_dropEnd; [exact Hd|].
    apply includes_dropStart; [exact Hc | exact H].
Qed.

Lemma cleaned_mentionsLimit (s : string) :
  (includes (toUpperCase (cleanSql s)) "LIMIT" ||
   includes (toUpperCase (cleanSql s)) "OFFSET") = mentionsLimit s.
Proof.
  unfold mentionsLimit.
  rewrite (includes_cleanSql "L" "IMI" "T") by reflexivity.
  now rewrite (includes_cleanSql "O" "FFSE" "T") by reflexivity.
Qed.

(** The first branch of [applyPagination]. *)
Lemma applyPagination_limited cfg s pageSize offset :
  mentionsLimit s = true ->
  applyPagination cfg s pageSize offset =
  mkPagination (cleanSql s) (orElse pageSize (DEFAULT_PAGE_SIZE cfg))
               (orElse offset 0).
Proof.
  intros H. unfold applyPagination. now rewrite cleaned_mentionsLimit, H.
Qed.

(** What [cleanSql] removes: white space in front; behind, a run of
    semicolons and the white space after it. *)
Lemma cleanSql_split (s : string) :
  exists pre semis trailing,
    s = pre ++ cleanSql s ++ semis ++ trailing /\
    allChars isWhiteSpace pre = true /\
    allChars isSemicolon semis = true /\
    allChars isWhiteSpace trailing = true.
Proof.
  unfold cleanSql, stripTrailingSemicolons, trim.
  destruct (dropStart_split isWhiteSpace s) as [pre [Hs Hpre]].
  destruct (dropEnd_split isWhiteSpace (dropStart isWhiteSpace s)) as [ws [Ht Hws]].
  destruct (dropEnd_split isSemicolon
              (dropEnd isWhiteSpace (dropStart isWhiteSpace s))) as [semis [Hc Hsemis]].
  exists pre, semis, ws. repeat split; try assumption.
  rewrite <- (append_assoc _ semis ws), <- Hc, <- Ht. exact Hs.
Qed.

Lemma append_empty_r (a : string) : a ++ EmptyString = a.
Proof. induction a as [|x a IH]; simpl; [reflexivity | now rewrite IH]. Qed.

Lemma orElse_nullish (x : option Z) (d : Z) :
  x <> Some 0 -> orElse x d = nullish x d.
Proof.
  destruct x as [n|]; simpl; [|reflexivity].
  intros H. destruct (Z.eqb_spec n 0) as [->|]; congruence.
Qed.

Lemma orElse_zero (x : option Z) : orElse x 0 = nullish x 0.
Proof.
  destruct x as [n|]; simpl; [|reflexivity].
  now destruct (Z.eqb_spec n 0).
Qed.

(** Without a limiting keyword the reported page size is capped. *)
Lemma applyPagination_capped cfg s pageSize offset :
  mentionsLimit s = false ->
  actualPageSize (applyPagination cfg s pageSize offset) <= MAX_PAGE_SIZE cfg.
Proof.
  intros H. unfold applyPagination. rewrite cleaned_mentionsLimit, H.
  destruct (isSingleRowAggregate _); [simpl; lia|].
  destruct (negb (AUTO_LIMIT cfg) && falsy pageSize); simpl; lia.
Qed.

(** C1 (the code departs from the claim).  With [MAX_PAGE_SIZE = 200], a
    statement that already has a LIMIT clause and a requested page size
    of 300: the text is returned as it is and the reported page size is
    300, above the maximum; the branch lacks the [Math.min] of the branch
    next to it (see [applyPagination_capped]). *)
Theorem C1_existing_limit_reports_uncapped_page_size :
  let p := applyPagination cappedConfig "SELECT * FROM users LIMIT 10"
             (Some 300) None in
  sql p = "SELECT * FROM users LIMIT 10" /\
  actualPageSize p = 300 /\
  MAX_PAGE_SIZE cappedConfig < actualPageSize p.
Proof. vm_compute. repeat split. Qed.

(** C6, as stated, fails: [SELECT COUNT( * ) FROM users] has no limiting or
    skip keyword, a page size of 1 is requested, and no LIMIT clause is
    appended. *)
Lemma C6_aggregate_gets_no_limit :
  let s := "SELECT COUNT(*) FROM users" in
  let p := applyPagination defaultConfig s (Some 1) None in
  mentionsLimit s = false /\
  effectivePageSize defaultConfig (Some 1) = 1 /\
  sql p = s /\
  sql p <> s ++ " LIMIT 1" /\
  includes (toUpperCase (sql p)) "LIMIT" = false.
Proof. vm_compute. repeat split. discriminate. Qed.

(** C6, amended.  For a text without limiting or skip keyword and a
    requested page size that is absent or not zero, the reported page size
    is [min(requested ?? DEFAULT_PAGE_SIZE, MAX_PAGE_SIZE)] and the reported
    offset is [requestedOffset ?? 0]; the cleaned text is returned as it is
    when it is a single-row aggregate, or when automatic limiting is off
    and no page size was requested; in every other case [LIMIT] with that
    page size is appended, and [OFFSET] exactly when the offset is
    positive. *)
Theorem C6_limit_appended_unless_aggregate_or_opted_out
    cfg s requestedPageSize requestedOffset :
  mentionsLimit s = false ->
  requestedPageSize <> Some 0 ->
  let p := applyPagination cfg s requestedPageSize requestedOffset in
  let size := effectivePageSize cfg requestedPageSize in
  let skip := nullish requestedOffset 0 in
  actualPageSize p = size /\
  actualOffset p = skip /\
  sql p =
    if isSingleRowAggregate (toUpperCase (cleanSql s)) ||
       (negb (AUTO_LIMIT cfg) && falsy requestedPageSize)
    then cleanSql s
    else cleanSql s ++ " LIMIT " ++ numberToString size ++
         (if 0 <? skip then " OFFSET " ++ numberToString skip else "").
Proof.
  intros Hno Hps. cbv zeta. unfold applyPagination, effectivePageSize.
  rewrite cleaned_mentionsLimit, Hno, orElse_zero, (orElse_nullish _ _ Hps).
  destruct (isSingleRowAggregate _); [now repeat split|].
  destruct (negb (AUTO_LIMIT cfg) && falsy requestedPageSize);
    [now repeat split|].
  cbn [orb sql actualPageSize actualOffset]. repeat split.
  destruct (0 <? nullish requestedOffset 0).
  - now rewrite !append_assoc.
  - now rewrite append_empty_r.
Qed.

Lemma C6_limit_appended_witness :
  let p := applyPagination defaultConfig "SELECT * FROM users" (Some 2) (Some 0) in
  actualPageSize p = 2 /\ actualOffset p = 0 /\
  sql p = "SELECT * FROM users LIMIT 2".
Proof.
  apply (C6_limit_appended_unless_aggregate_or_opted_out
           defaultConfig "SELECT * FROM users" (Some 2) (Some 0)).
  - reflexivity.
  - discriminate.
Defined.

(** C7, as stated, fails: the text has a LIMIT clause and the rewritten
    text differs from it, the final semicolon being removed. *)
Lemma C7_trailing_semicolon_removed :
  let s := "SELECT * FROM users LIMIT 10;" in
  let p := applyPagination defaultConfig s (Some 50) (Some 0) in
  includes (toUpperCase s) "LIMIT" = true /\
  sql p = "SELECT * FROM users LIMIT 10" /\
  sql p <> s.
Proof. vm_compute. repeat split. discriminate. Qed.

(** C7, amended.  For a text that has the LIMIT keyword, and all page sizes
    and offsets, the rewritten text is the cleaned text: the input without
    the white space in front of it and without the semicolons, and the
    white space after them, that end it.  Nothing else changes; an input
    with nothing to strip is returned as it is. *)
Theorem C7_limited_sql_is_only_cleaned cfg s n m :
  includes (toUpperCase s) "LIMIT" = true ->
  let p := applyPagination cfg s n m in
  sql p = cleanSql s /\
  exists pre semis trailing,
    s = pre ++ sql p ++ semis ++ trailing /\
    allChars isWhiteSpace pre = true /\
    allChars isSemicolon semis = true /\
    allChars isWhiteSpace trailing = true.
Proof.
  intros H. cbv zeta. rewrite applyPagination_limited.
  - split; [reflexivity | apply cleanSql_split].
  - unfold mentionsLimit. now rewrite H.
Qed.

Lemma C7_limited_sql_witness :
  sql (applyPagination defaultConfig "SELECT * FROM users LIMIT 10" (Some 50) (Some 7))
  = "SELECT * FROM users LIMIT 10".
Proof.
  apply (C7_limited_sql_is_only_cleaned defaultConfig
           "SELECT * FROM users LIMIT 10" (Some 50) (Some 7)).
  reflexivity.
Defined.

(** C10, as stated, fails: the word [limit] stands inside a string literal,
    so no LIMIT clause is appended, but the text is not returned as it was:
    the final semicolon is removed. *)
Lemma C10_literal_limit_semicolon_removed :
  let s := "SELECT * FROM t WHERE note = 'no limit';" in
  let p := applyPagination defaultConfig s (Some 5) (Some 10) in
  includes (toUpperCase s) "LIMIT" = true /\
  sql p = "SELECT * FROM t WHERE note = 'no limit'" /\
  sql p <> s.
Proof. vm_compute. repeat split. discriminate. Qed.

(** C10, amended.  The test for an existing limiting clause is a substring
    search for [LIMIT] or [OFFSET] in the whole uppercased text: whenever
    either occurs anywhere, for every page size and offset, nothing is
    appended and the cleaned text is returned, which is the input itself
    when the input is trimmed and does not end with a semicolon. *)
Theorem C10_limit_detection_is_substring_search cfg s n m :
  includes (toUpperCase s) "LIMIT" = true \/
  includes (toUpperCase s) "OFFSET" = true ->
  let p := applyPagination cfg s n m in
  sql p = cleanSql s /\
  (trim s = s -> stripTrailingSemicolons s = s -> sql p = s).
Proof.
  intros H. cbv zeta. rewrite applyPagination_limited.
  - split; [reflexivity|]. intros Ht Hs. cbn [sql]. unfold cleanSql.
    now rewrite Ht, Hs.
  - unfold mentionsLimit. apply orb_true_iff. exact H.
Qed.

Lemma C10_limit_detection_witness :
  let s := "SELECT * FROM t WHERE note = 'no limit'" in
  sql (applyPagination defaultConfig s (Some 5) (Some 10)) = s.
Proof.
  cbv zeta.
  apply (C10_limit_detection_is_substring_search defaultConfig
           "SELECT * FROM t WHERE note = 'no limit'" (Some 5) (Some 10)).
  - left. reflexivity.
  - reflexivity.
  - reflexivity.
Defined.

End PaginationFacts.

(** ** The policy validator *)

Module ValidatorFacts.

Import Js JsFacts.

Lemma arrayIncludes_In (l : list string) (x : string) :
  arrayIncludes l x = true <-> In x l.
Proof.
  unfold arrayIncludes. rewrite existsb_exists. split.
  - intros [y [Hy Heq]]. apply String.eqb_eq in Heq. now subst.
  - intros H. exists x. split; [exact H | apply String.eqb_refl].
Qed.

Lemma arrayIncludes_not_In (l : list string) (x : string) :
  ~ In x l -> arrayIncludes l x = false.
Proof.
  intros H. destruct (arrayIncludes l x) eqn:E; [|reflexivity].
  now apply arrayIncludes_In in E.
Qed.

Lemma truthyString_true (s : string) : s <> EmptyString -> truthyString s = true.
Proof. now destruct s. Qed.

Lemma trim_empty : trim EmptyString = EmptyString.
Proof. reflexivity. Qed.

Lemma empty_not_dangerous : ~ In EmptyString DANGEROUS_OPERATIONS.
Proof. simpl. intuition discriminate. Qed.

(** Past the keyword tests, the verdict is that of the loop over the
    parsed statements. *)
Lemma validateSqlSafety_parsed readOnlyMode astify sqlString :
  ReachesParser sqlString ->
  validateSqlSafety readOnlyMode astify sqlString =
  match astify (trim sqlString) with
  | ParseError => invalid "Invalid SQL syntax - unable to parse query"
  | AstOne statement => checkStatements readOnlyMode [statement]
  | AstArray statements => checkStatements readOnlyMode statements
  end.
Proof.
  intros (Hne & Hdanger & Hexplain & Hmerge & Hupsert).
  unfold validateSqlSafety.
  assert (Hs : sqlString <> EmptyString) by (intros ->; now apply Hne).
  rewrite (truthyString_true _ Hs), (truthyString_true _ Hne). cbn [negb].
  rewrite (arrayIncludes_not_In _ _ Hdanger).
  apply String.eqb_neq in Hexplain, Hmerge, Hupsert.
  now rewrite Hexplain, Hmerge, Hupsert.
Qed.

(** C2.  When the uppercased leading word of the text is a dangerous
    operation, validation rejects, whatever the access mode and whatever
    the parser would answer; the error names the operation and contains
    "not allowed". *)
Theorem C2_dangerous_keyword_rejected_in_every_mode
    (readOnlyMode : bool) (astify : string -> Ast) (sqlString : string) :
  In (firstWord sqlString) DANGEROUS_OPERATIONS ->
  let result := validateSqlSafety readOnlyMode astify sqlString in
  result = invalid (dangerousError (firstWord sqlString)) /\
  isValid result = false /\
  includes (dangerousError (firstWord sqlString)) (firstWord sqlString) = true /\
  includes (dangerousError (firstWord sqlString)) "not allowed" = true.
Proof.
  intros Hin. cbv zeta.
  assert (Hres : validateSqlSafety readOnlyMode astify sqlString =
                 invalid (dangerousError (firstWord sqlString))).
  { unfold validateSqlSafety.
    destruct sqlString as [|c s] eqn:E.
    { exfalso. now apply empty_not_dangerous. }
    rewrite <- E in *. cbn [truthyString negb].
    replace (truthyString sqlString) with true by (now rewrite E).
    cbn [negb].
    destruct (trim sqlString) eqn:Et.
    { exfalso. unfold firstWord in Hin. rewrite Et in Hin.
      now apply empty_not_dangerous. }
    cbn [truthyString negb].
    apply arrayIncludes_In in Hin. now rewrite Hin. }
  rewrite Hres. repeat split.
  - unfold dangerousError. apply includes_middle.
  - simpl in Hin.
    repeat (destruct Hin as [<- | Hin]; [reflexivity|]). contradiction.
Qed.

Lemma C2_dangerous_keyword_witness :
  validateSqlSafety false exampleAstify "  drop table users" =
  invalid "Dangerous operation 'DROP' is not allowed".
Proof.
  apply (C2_dangerous_keyword_rejected_in_every_mode
           false exampleAstify "  drop table users").
  vm_compute. now left.
Defined.

Section Statements.

Variable readOnlyMode : bool.

Lemma checkStatements_valid (statements : list Statement) :
  checkStatements readOnlyMode statements = valid <-> Forall (passes readOnlyMode) statements.
Proof.
  induction statements as [|st rest IH]; simpl.
  - split; [constructor | reflexivity].
  - destruct (checkStatement readOnlyMode st) eqn:E.
    + split; [discriminate|]. intros H. inversion H as [|? ? Hst _]; subst.
      unfold passes in Hst. congruence.
    + rewrite IH. split.
      * intros H. now constructor.
      * intros H. now inversion H.
Qed.


End Statements.


(** Settles [ReachesParser] on a concrete text. *)
Ltac reaches_parser :=
  unfold ReachesParser; vm_compute;
  repeat split; try discriminate; intuition discriminate.

(** *** Trivial WHERE clauses *)

Lemma isStr_spec (x : option string) (lit : string) :
  isStr x lit = true <-> x = Some lit.
Proof.
  destruct x as [s|]; simpl.
  - rewrite String.eqb_eq. split; [now intros -> | now intros [= ->]].
  - split; discriminate.
Qed.

Lemma strictEq_spec (a b : Value) : strictEq a b = true <-> a = b.
Proof.
  destruct a, b; simpl; try (split; [discriminate | discriminate || reflexivity]);
    try (split; reflexivity).
  - rewrite Bool.eqb_true_iff. split; [now intros -> | now intros [= ->]].
  - rewrite Z.eqb_eq. split; [now intros -> | now intros [= ->]].
  - rewrite String.eqb_eq. split; [now intros -> | now intros [= ->]].
Qed.

Lemma sameColumn_spec (l r : Expr) :
  sameColumn l r = true <->
  exprType l = Some "column_ref" /\ exprType r = Some "column_ref" /\
  ((exists v,
      resolveColumn (exprColumn l) = RObject (mkObj (Some "double_quote_string") v) /\
      resolveColumn (exprColumn r) = RObject (mkObj (Some "double_quote_string") v))
   \/
   (exists name,
      resolveColumn (exprColumn l) = RString name /\
      resolveColumn (exprColumn r) = RString name)).
Proof.
  unfold sameColumn. rewrite !andb_true_iff, !isStr_spec.
  split.
  - intros [[Hl Hr] H]. repeat split; try assumption.
    destruct (resolveColumn (exprColumn l)) as [|ls|[lt lv]];
      destruct (resolveColumn (exprColumn r)) as [|rs|[rt rv]];
      try discriminate.
    + right. apply String.eqb_eq in H. subst. now exists rs.
    + left. cbn [otype ovalue] in H.
      rewrite !andb_true_iff, !isStr_spec, strictEq_spec in H.
      destruct H as [[-> ->] ->]. now exists rv.
  - intros (Hl & Hr & [[v [-> ->]] | [name [-> ->]]]); repeat split; try assumption.
    + cbn [otype ovalue]. rewrite !andb_true_iff, !isStr_spec, strictEq_spec.
      now repeat split.
    + apply String.eqb_refl.
Qed.

Lemma identicalSides_spec (l r : Expr) :
  sameNumber l r || sameSingleQuoteString l r || sameColumn l r = true <->
  DetectedSides l r.
Proof.
  rewrite !orb_true_iff, sameColumn_spec.
  unfold sameNumber, sameSingleQuoteString.
  rewrite !andb_true_iff, !isStr_spec, strictEq_spec. split.
  - intros [[[[Hl Hr] Hv] | [[Hl Hr] Hv]] | (Hl & Hr & [[v [Hlc Hrc]] | [n [Hlc Hrc]]])].
    + now apply DetectedNumbers.
    + now apply DetectedSingleQuoteStrings.
    + now apply DetectedQuotedIdentifiers with v.
    + now apply DetectedColumnStrings with n.
  - intros [Hl Hr Hv | Hl Hr Hv | v Hl Hr Hlc Hrc | n Hl Hr Hlc Hrc].
    + left; left. now repeat split.
    + left; right. now repeat split.
    + right. repeat split; try assumption. left. now exists v.
    + right. repeat split; try assumption. right. now exists n.
Qed.

(** The cascade of tests of the validator, as a predicate on the tree. *)
Lemma isTrivialWhere_spec (w : Expr) :
  isTrivialWhere w = true <-> DetectedTrivial w.
Proof.
  unfold isTrivialWhere.
  rewrite !orb_true_iff, !andb_true_iff, !isStr_spec, strictEq_spec. split.
  - intros [[[Ht Hv] | Ht] | [[Ht Ho] H]].
    + now apply DetectedTrue.
    + now apply DetectedNumber.
    + destruct (exprLeft w) as [l|] eqn:El; [|discriminate].
      destruct (exprRight w) as [r|] eqn:Er; [|discriminate].
      apply DetectedEquality with l r; try assumption.
      now apply identicalSides_spec.
  - intros [Ht Hv | Ht | l r Ht Ho Hl Hr Hsides].
    + left; left. now split.
    + left; right. exact Ht.
    + right. repeat split; try assumption. rewrite Hl, Hr.
      now apply identicalSides_spec.
Qed.

Lemma isTrivialWhere_false (w : Expr) :
  ~ DetectedTrivial w -> isTrivialWhere w = false.
Proof.
  intros H. destruct (isTrivialWhere w) eqn:E; [|reflexivity].
  now apply isTrivialWhere_spec in E.
Qed.

(** The WHERE rule of read-write mode on one UPDATE or DELETE statement:
    rejected without WHERE clause, rejected with a WHERE clause the
    validator detects as trivial, allowed with any other. *)
Lemma update_delete_where_rule
    (astify : string -> Ast) (sqlString : string) (statement : Statement)
    (statementType : string) :
  ReachesParser sqlString ->
  astify (trim sqlString) = AstOne statement \/
  astify (trim sqlString) = AstArray [statement] ->
  option_map toUpperCase (stype statement) = Some statementType ->
  statementType = "UPDATE" \/ statementType = "DELETE" ->
  let result := validateSqlSafety false astify sqlString in
  match where_ statement with
  | None =>
      result = invalid (missingWhereError statementType) /\
      includes (missingWhereError statementType) "WHERE clause" = true
  | Some w =>
      (DetectedTrivial w ->
       result = invalid (trivialWhereError statementType) /\
       includes (trivialWhereError statementType) "trivial WHERE" = true) /\
      (~ DetectedTrivial w -> result = valid)
  end.
Proof.
  intros Hreach Hast Htype Hkind. cbv zeta.
  assert (Hres : validateSqlSafety false astify sqlString =
                 checkStatements false [statement]).
  { rewrite (validateSqlSafety_parsed _ _ _ Hreach).
    now destruct Hast as [-> | ->]. }
  rewrite Hres. cbn [checkStatements]. unfold checkStatement. rewrite Htype.
  assert (Hd : arrayIncludesOpt DANGEROUS_OPERATIONS (Some statementType) = false)
    by (destruct Hkind as [-> | ->]; reflexivity).
  assert (Hk : String.eqb statementType "UPDATE" || String.eqb statementType "DELETE"
               = true) by (destruct Hkind as [-> | ->]; reflexivity).
  rewrite Hd, Hk.
  destruct (where_ statement) as [w|].
  - split.
    + intros Hw. apply isTrivialWhere_spec in Hw. rewrite Hw.
      split; [reflexivity | destruct Hkind as [-> | ->]; reflexivity].
    + intros Hw. now rewrite (isTrivialWhere_false _ Hw).
  - split; [reflexivity | destruct Hkind as [-> | ->]; reflexivity].
Qed.

(** C4 (the code departs from the claim).  In read-write mode,
    [DELETE FROM users WHERE id = id] parses into one DELETE statement
    whose WHERE clause is an equality of two identical column references;
    the claim has it rejected as a trivial WHERE clause.  The column of an
    unquoted name is an object of type [default], which neither the test
    for [double_quote_string] nor the test for plain strings ("Check if
    both are the same column name") matches: the clause is not detected
    and the statement is allowed. *)
Theorem C4_identical_plain_columns_are_accepted :
  let side := columnRef "id" in
  let whereClause := equality side side in
  selfComparisonAstify (trim "DELETE FROM users WHERE id = id") =
    AstOne (mkStatement (Some "delete") (Some whereClause)) /\
  exprType side = Some "column_ref" /\
  exprType whereClause = Some "binary_expr" /\
  exprOperator whereClause = Some "=" /\
  exprLeft whereClause = exprRight whereClause /\
  isTrivialWhere whereClause = false /\
  validateSqlSafety false selfComparisonAstify "DELETE FROM users WHERE id = id"
    = valid.
Proof. vm_compute. repeat split. Qed.

(** C5.  A text that gets as far as the parser and that the parser fails
    to parse is rejected in either mode, with an error containing
    "Invalid SQL syntax". *)
Theorem C5_parse_failure_is_rejected
    (readOnlyMode : bool) (astify : string -> Ast) (sqlString : string) :
  ReachesParser sqlString ->
  astify (trim sqlString) = ParseError ->
  let result := validateSqlSafety readOnlyMode astify sqlString in
  result = invalid "Invalid SQL syntax - unable to parse query" /\
  isValid result = false /\
  (forall msg, error result = Some msg -> includes msg "Invalid SQL syntax" = true).
Proof.
  intros Hreach Hast. cbv zeta.
  rewrite (validateSqlSafety_parsed _ _ _ Hreach), Hast.
  repeat split. intros msg [= <-]. reflexivity.
Qed.

Lemma C5_parse_failure_witness :
  validateSqlSafety true exampleAstify "SELEC * FROM users" =
    invalid "Invalid SQL syntax - unable to parse query" /\
  validateSqlSafety false exampleAstify "SELEC * FROM users" =
    invalid "Invalid SQL syntax - unable to parse query".
Proof.
  split.
  - apply (C5_parse_failure_is_rejected true exampleAstify "SELEC * FROM users").
    + reaches_parser.
    + reflexivity.
  - apply (C5_parse_failure_is_rejected false exampleAstify "SELEC * FROM users").
    + reaches_parser.
    + reflexivity.
Defined.

End ValidatorFacts.

(** ** The parameter sanitizer, the result governor and the query tool *)

Module QueryToolFacts.

Import Js JsFacts.

Lemma checkParameter_scalar (v : JsValue) :
  checkParameter v = None <-> isScalar v = true.
Proof.
  destruct v as [| | b | n | s | n | d | ps | items | name]; cbn;
    try (split; [reflexivity | reflexivity]);
    try (split; discriminate).
  destruct n; cbn; split; (reflexivity || discriminate).
Qed.

Lemma checkParameter_error (v : JsValue) (msg : string) :
  checkParameter v = Some msg ->
  msg = parameterTypeError \/ msg = parameterFiniteError.
Proof.
  unfold checkParameter.
  destruct (negb (isNull v) && _ && _ && _).
  - intros [= <-]. now left.
  - destruct v as [| | | n | | | | | |]; try discriminate.
    destruct (negb (isFinite n)); [|discriminate]. intros [= <-]. now right.
Qed.

(** The sanitizer accepts exactly the sequences of scalars. *)
Lemma validateParameters_accepts (parameters : list JsValue) :
  validateParameters parameters = None <->
  Forall (fun v => isScalar v = true) parameters.
Proof.
  induction parameters as [|v rest IH]; simpl.
  - split; [constructor | reflexivity].
  - destruct (checkParameter v) as [msg|] eqn:E.
    + split; [discriminate|]. intros H. inversion H as [|? ? Hv _]; subst.
      apply checkParameter_scalar in Hv. congruence.
    + rewrite IH. apply checkParameter_scalar in E. split.
      * intros H. now constructor.
      * intros H. now inversion H.
Qed.

Lemma validateParameters_error (parameters : list JsValue) (msg : string) :
  validateParameters parameters = Some msg ->
  msg = parameterTypeError \/ msg = parameterFiniteError.
Proof.
  induction parameters as [|v rest IH]; simpl; [discriminate|].
  destruct (checkParameter v) as [m|] eqn:E; [|exact IH].
  intros [= <-]. now apply checkParameter_error with v.
Qed.

Lemma validateParameters_rejects (parameters : list JsValue) :
  Exists (fun v => isScalar v = false) parameters ->
  validateParameters parameters = Some parameterTypeError \/
  validateParameters parameters = Some parameterFiniteError.
Proof.
  intros Hbad.
  destruct (validateParameters parameters) as [msg|] eqn:E.
  - destruct (validateParameters_error _ _ E) as [-> | ->]; auto.
  - exfalso. apply validateParameters_accepts in E.
    apply Exists_exists in Hbad. destruct Hbad as [v [Hin Hv]].
    rewrite Forall_forall in E. specialize (E v Hin). congruence.
Qed.

(** The text [toFixed(2)] gives for a number of bytes over [2^20]. *)
Lemma megabytes_text (bytes : Z) :
  0 <= bytes -> isMegabyteText bytes (megabytes bytes).
Proof.
  intros Hpos. exists ((200 * bytes + 1048576) / 2097152). split.
  - pose proof (Z.div_mod (200 * bytes + 1048576) 2097152 ltac:(lia)) as Hdiv.
    pose proof (Z.mod_pos_bound (200 * bytes + 1048576) 2097152 ltac:(lia)) as Hmod.
    lia.
  - unfold megabytes, twoDigits.
    replace (bytes <? 0) with false by (symmetry; apply Z.ltb_ge; lia).
    rewrite (Z.abs_eq bytes Hpos).
    now rewrite (Z.mod_mod_divide _ 100 10) by (now exists 10).
Qed.

Lemma includes_app_r (a b p : string) :
  includes b p = true -> includes (a ++ b) p = true.
Proof.
  intros H. apply includes_spec in H. destruct H as [x [y ->]].
  apply includes_spec. exists (a ++ x), y. now rewrite append_assoc.
Qed.

Section Tool.

Variable cfg : QueryConfig.
Variable readOnlyMode : bool.
Variable astify : string -> Ast.
Context {Row : Type}.
Variable payloadByteLength : list Row -> Z.
Context {RawInput : Type}.
Variable validateInput : RawInput -> QueryInput + string.
Variable poolQuery : GatewayCall -> QueryResult Row + Thrown.

(** C8.  The sanitizer accepts exactly the sequences of scalars (the
    empty one among them) and answers every other sequence with an
    error.  For a request whose parameters hold a value that is not a
    scalar, the query tool makes no call to the execution gateway, and
    when the request passed the SQL validation its answer is the
    sanitizer's error. *)
Theorem C8_non_scalar_parameters_never_reach_the_gateway
    (parameters : list JsValue) :
  (validateParameters parameters = None <->
   Forall (fun v => isScalar v = true) parameters) /\
  (Exists (fun v => isScalar v = false) parameters ->
   (validateParameters parameters = Some parameterTypeError \/
    validateParameters parameters = Some parameterFiniteError) /\
   forall (input : RawInput) (validatedInput : QueryInput),
     validateInput input = inl validatedInput ->
     inParameters validatedInput = Some parameters ->
     snd (queryTool cfg readOnlyMode astify payloadByteLength
            validateInput poolQuery input) = [] /\
     (isValid (validateSqlSafety readOnlyMode astify (inSql validatedInput)) = true ->
      queryTool cfg readOnlyMode astify payloadByteLength
        validateInput poolQuery input =
      (errorOutput (validateParameters parameters), []))).
Proof.
  split; [apply validateParameters_accepts|].
  intros Hbad. pose proof (validateParameters_rejects _ Hbad) as Herr.
  split; [exact Herr|].
  intros input validatedInput Hin Hparams.
  assert (Hlen : (0 <? List.length parameters)%nat = true).
  { destruct parameters; [inversion Hbad | reflexivity]. }
  assert (Hstep :
            isValid (validateSqlSafety readOnlyMode astify
                       (inSql validatedInput)) = true ->
            queryTool cfg readOnlyMode astify payloadByteLength
              validateInput poolQuery input =
            (errorOutput (validateParameters parameters), [])).
  { intros Hvalid. unfold queryTool. rewrite Hin, Hvalid. cbn [negb].
    unfold paramsOf. rewrite Hparams, Hlen.
    now destruct Herr as [-> | ->]. }
  split; [|exact Hstep].
  destruct (isValid (validateSqlSafety readOnlyMode astify (inSql validatedInput)))
    eqn:Hvalid.
  - now rewrite Hstep.
  - unfold queryTool. now rewrite Hin, Hvalid.
Qed.

(** C9.  On the success path of a read-only statement: when the byte
    length of the serialized rows exceeds [MAX_PAYLOAD_SIZE], the answer
    has no rows, no row count and no pagination data, only an error whose
    text gives the actual and the maximal size, each as megabytes rounded
    to two decimal places, and advises a smaller page size or more
    specific WHERE conditions; otherwise the rows are returned as the
    gateway gave them, with their count and the pagination data. *)
Theorem C9_oversized_payload_becomes_an_error
    (input : RawInput) (validatedInput : QueryInput) (result : QueryResult Row) :
  validateInput input = inl validatedInput ->
  isValid (validateSqlSafety readOnlyMode astify (inSql validatedInput)) = true ->
  validateParameters (paramsOf validatedInput) = None ->
  isReadOnlyQuery (trim (inSql validatedInput)) = true ->
  let p := applyPagination cfg (trim (inSql validatedInput))
             (inPageSize validatedInput) (inOffset validatedInput) in
  poolQuery (gatewayCall (paramsOf validatedInput) (sql p)) = inl result ->
  let payloadSize := payloadByteLength (resultRows result) in
  let maxSize := MAX_PAYLOAD_SIZE cfg in
  let n := Z.of_nat (List.length (resultRows result)) in
  let answer := fst (queryTool cfg readOnlyMode astify payloadByteLength
                       validateInput poolQuery input) in
  (0 <= maxSize -> maxSize < payloadSize ->
   rows answer = None /\ rowCount answer = None /\ pagination answer = None /\
   exists actual maximal,
     isMegabyteText payloadSize actual /\
     isMegabyteText maxSize maximal /\
     outError answer =
       Some ("Query result payload (" ++ actual ++
             "MB) exceeds maximum allowed size (" ++ maximal ++
             "MB). Please reduce pageSize or add more specific WHERE conditions to limit results.")) /\
  (payloadSize <= maxSize ->
   rows answer = Some (resultRows result) /\
   rowCount answer = Some n /\
   pagination answer =
     Some (mkPageInfo (n =? actualPageSize p) (actualPageSize p) (actualOffset p)) /\
   outError answer = None /\ code answer = None /\ hint answer = None).
Proof.
  intros Hin Hvalid Hparams Hread p Hquery payloadSize maxSize n answer.
  assert (Hrun : answer =
            if maxSize <? payloadSize
            then errorOutput (Some (payloadError payloadSize maxSize))
            else mkOutput (Some (resultRows result)) (Some n)
                   (Some (mkPageInfo (n =? actualPageSize p) (actualPageSize p)
                                     (actualOffset p)))
                   None None None).
  { unfold answer, queryTool. rewrite Hin, Hvalid. cbn [negb].
    rewrite Hparams.
    replace (if (0 <? List.length (paramsOf validatedInput))%nat
             then @None string else None) with (@None string)
      by (now destruct (0 <? List.length (paramsOf validatedInput))%nat).
    rewrite Hread. fold p. rewrite Hquery.
    fold payloadSize maxSize. now destruct (maxSize <? payloadSize). }
  split.
  - intros Hmax Hbig. assert (Hpos : 0 <= payloadSize) by lia.
    apply Z.ltb_lt in Hbig. rewrite Hrun, Hbig.
    split; [reflexivity|]. split; [reflexivity|]. split; [reflexivity|].
    exists (megabytes payloadSize), (megabytes maxSize).
    split; [now apply megabytes_text|]. split; [now apply megabytes_text|].
    reflexivity.
  - intros Hsmall. apply Z.ltb_ge in Hsmall. rewrite Hrun, Hsmall. now repeat split.
Qed.

End Tool.

Lemma C8_non_scalar_parameters_witness :
  queryTool defaultConfig true exampleAstify examplePayload
    exampleValidateInput examplePool
    (mkQueryInput "SELECT * FROM users"
       (Some [JObject [("malicious", JBoolean true)]]) None None)
  = (errorOutput (Some parameterTypeError), []).
Proof.
  destruct (C8_non_scalar_parameters_never_reach_the_gateway
              defaultConfig true exampleAstify examplePayload
              exampleValidateInput examplePool
              [JObject [("malicious", JBoolean true)]]) as [_ H].
  destruct H as [_ H]; [apply Exists_cons_hd; reflexivity|].
  destruct (H (mkQueryInput "SELECT * FROM users"
                 (Some [JObject [("malicious", JBoolean true)]]) None None)
              (mkQueryInput "SELECT * FROM users"
                 (Some [JObject [("malicious", JBoolean true)]]) None None)
              eq_refl eq_refl) as [_ Hvalid].
  exact (Hvalid eq_refl).
Defined.

Lemma C9_oversized_payload_witness :
  let answer :=
    fst (queryTool defaultConfig true exampleAstify heavyPayload
           exampleValidateInput examplePool
           (mkQueryInput "SELECT * FROM users" None (Some 2) None)) in
  rows answer = None /\ rowCount answer = None /\
  outError answer =
    Some "Query result payload (5.72MB) exceeds maximum allowed size (5.00MB). Please reduce pageSize or add more specific WHERE conditions to limit results.".
Proof.
  destruct (C9_oversized_payload_becomes_an_error
              defaultConfig true exampleAstify heavyPayload
              exampleValidateInput examplePool
              (mkQueryInput "SELECT * FROM users" None (Some 2) None)
              (mkQueryInput "SELECT * FROM users" None (Some 2) None)
              (mkQueryResult [1; 2] (Some 2))
              eq_refl eq_refl eq_refl eq_refl eq_refl) as [Hbig _].
  destruct Hbig as (Hrows & Hcount & _ & actual & maximal & Ha & Hm & Herr).
  - vm_compute. discriminate.
  - reflexivity.
  - cbv zeta. split; [exact Hrows|]. split; [exact Hcount|].
    rewrite Herr.
    destruct Ha as [ha [Hba ->]]. destruct Hm as [hm [Hbm ->]].
    change (heavyPayload (resultRows (mkQueryResult [1; 2] (Some 2)))) with 6000000 in Hba.
    change (MAX_PAYLOAD_SIZE defaultConfig) with 5242880 in Hbm.
    assert (ha = 572) by lia. assert (hm = 500) by lia. subst. reflexivity.
Defined.

End QueryToolFacts.

(** ** More on the policy validator *)

Module ValidatorCoverage.

Import Js JsFacts ValidatorFacts.

Lemma dropStart_all (f : ascii -> bool) (s : string) :
  allChars f s = true -> dropStart f s = EmptyString.
Proof.
  induction s as [|c r IH]; simpl; [reflexivity|].
  intros H. apply andb_true_iff in H. destruct H as [Hc Hr].
  rewrite Hc. now apply IH.
Qed.

Lemma trim_blank (s : string) :
  allChars isWhiteSpace s = true -> trim s = EmptyString.
Proof. intros H. unfold trim. now rewrite dropStart_all. Qed.

(** X1.  A text made of white space only is rejected in either mode
    without a look at the parser: the empty text as missing, any other
    blank text as empty. *)
Theorem blank_sql_is_rejected
    (readOnlyMode : bool) (astify : string -> Ast) (sqlString : string) :
  allChars isWhiteSpace sqlString = true ->
  validateSqlSafety readOnlyMode astify sqlString =
  invalid (if truthyString sqlString
           then "SQL query cannot be empty"
           else "SQL query is required and must be a string").
Proof.
  intros H. unfold validateSqlSafety.
  destruct (truthyString sqlString); [|reflexivity].
  cbn [negb]. now rewrite (trim_blank _ H).
Qed.

Lemma blank_sql_witness :
  validateSqlSafety false exampleAstify "   " = invalid "SQL query cannot be empty".
Proof.
  apply (blank_sql_is_rejected false exampleAstify "   "). reflexivity.
Defined.

(** A leading word that is not empty comes from a text that is not blank. *)
Lemma firstWord_not_empty (sqlString : string) :
  firstWord sqlString <> EmptyString ->
  truthyString sqlString = true /\ truthyString (trim sqlString) = true.
Proof.
  intros H. split.
  - destruct sqlString; [now elim H | reflexivity].
  - unfold firstWord in H. destruct (trim sqlString); [now elim H | reflexivity].
Qed.

(** The keyword stage of [validateSqlSafety], for a leading word that is
    not empty. *)
Lemma validateSqlSafety_keyword readOnlyMode astify sqlString :
  firstWord sqlString <> EmptyString ->
  validateSqlSafety readOnlyMode astify sqlString =
  let w := firstWord sqlString in
  if arrayIncludes DANGEROUS_OPERATIONS w then invalid (dangerousError w)
  else if String.eqb w "EXPLAIN" then valid
  else if String.eqb w "MERGE" || String.eqb w "UPSERT" then
    if readOnlyMode then invalid readOnlyError
    else invalid "MERGE and UPSERT operations are not currently supported"
  else
    match astify (trim sqlString) with
    | ParseError => invalid "Invalid SQL syntax - unable to parse query"
    | AstOne statement => checkStatements readOnlyMode [statement]
    | AstArray statements => checkStatements readOnlyMode statements
    end.
Proof.
  intros H. destruct (firstWord_not_empty _ H) as [Hs Ht].
  unfold validateSqlSafety. now rewrite Hs, Ht.
Qed.

Lemma validateSqlSafety_explain readOnlyMode astify sqlString :
  firstWord sqlString = "EXPLAIN" ->
  validateSqlSafety readOnlyMode astify sqlString = valid.
Proof.
  intros H. rewrite validateSqlSafety_keyword by (rewrite H; discriminate).
  cbv zeta. now rewrite H.
Qed.

(** X2.  A text whose leading word is EXPLAIN is accepted in either mode,
    whatever follows the keyword and whatever the parser would say. *)
Theorem explain_keyword_is_accepted
    (readOnlyMode : bool) (astify : string -> Ast) (sqlString : string) :
  firstWord sqlString = "EXPLAIN" ->
  validateSqlSafety readOnlyMode astify sqlString = valid.
Proof. apply validateSqlSafety_explain. Qed.

Lemma explain_keyword_witness :
  validateSqlSafety true exampleAstify "explain analyze DELETE FROM users" = valid.
Proof.
  apply (explain_keyword_is_accepted true exampleAstify
           "explain analyze DELETE FROM users").
  reflexivity.
Defined.

(** X3.  A text whose leading word is MERGE or UPSERT is rejected in either
    mode, before parsing: as not read-only in read-only mode, as not
    supported in read-write mode. *)
Theorem merge_upsert_are_rejected
    (readOnlyMode : bool) (astify : string -> Ast) (sqlString : string) :
  firstWord sqlString = "MERGE" \/ firstWord sqlString = "UPSERT" ->
  validateSqlSafety readOnlyMode astify sqlString =
  invalid (if readOnlyMode then readOnlyError
           else "MERGE and UPSERT operations are not currently supported").
Proof.
  intros H.
  rewrite validateSqlSafety_keyword by (destruct H as [-> | ->]; discriminate).
  cbv zeta. destruct H as [-> | ->]; now destruct readOnlyMode.
Qed.

Lemma merge_upsert_witness :
  validateSqlSafety false exampleAstify "merge into t using s on t.id = s.id" =
  invalid "MERGE and UPSERT operations are not currently supported".
Proof.
  apply (merge_upsert_are_rejected false exampleAstify
           "merge into t using s on t.id = s.id").
  left. reflexivity.
Defined.

(** Every verdict is [valid] or carries an error text that is not empty. *)
Lemma checkStatement_message readOnlyMode statement msg :
  checkStatement readOnlyMode statement = Some msg -> msg <> EmptyString.
Proof.
  unfold checkStatement.
  destruct (arrayIncludesOpt _ _); [intros [= <-]; discriminate|].
  destruct readOnlyMode.
  - destruct (negb _); [intros [= <-]; discriminate | discriminate].
  - destruct (option_map toUpperCase (stype statement)) as [t|]; [|discriminate].
    destruct (_ || _); [|discriminate].
    destruct (where_ statement) as [w|].
    + destruct (isTrivialWhere w); [|discriminate].
      intros [= <-]. apply append_cons_not_empty.
    + intros [= <-]. apply append_cons_not_empty.
Qed.

Lemma checkStatements_cases readOnlyMode statements :
  checkStatements readOnlyMode statements = valid \/
  exists msg, checkStatements readOnlyMode statements = invalid msg /\
              msg <> EmptyString.
Proof.
  induction statements as [|st rest IH]; simpl; [now left|].
  destruct (checkStatement readOnlyMode st) as [msg|] eqn:E; [|exact IH].
  right. exists msg. split; [reflexivity|].
  now apply checkStatement_message with readOnlyMode st.
Qed.

Lemma validateSqlSafety_cases readOnlyMode astify sqlString :
  validateSqlSafety readOnlyMode astify sqlString = valid \/
  exists msg, validateSqlSafety readOnlyMode astify sqlString = invalid msg /\
              msg <> EmptyString.
Proof.
  unfold validateSqlSafety.
  destruct (negb (truthyString sqlString));
    [right; eexists; split; [reflexivity | discriminate]|].
  destruct (negb (truthyString (trim sqlString)));
    [right; eexists; split; [reflexivity | discriminate]|].
  destruct (arrayIncludes _ _);
    [right; eexists; split; [reflexivity | discriminate]|].
  destruct (String.eqb _ "EXPLAIN"); [now left|].
  destruct (_ || _).
  { destruct readOnlyMode; right; eexists; split; try reflexivity; discriminate. }
  destruct (astify _).
  - right; eexists; split; [reflexivity | discriminate].
  - apply checkStatements_cases.
  - apply checkStatements_cases.
Qed.

(** Acceptance: by the EXPLAIN keyword, or by a parse all of whose
    statements pass. *)
Lemma accepted_iff readOnlyMode astify sqlString :
  validateSqlSafety readOnlyMode astify sqlString = valid <->
  firstWord sqlString = "EXPLAIN" \/
  (ReachesParser sqlString /\
   exists statements,
     statementsOf (astify (trim sqlString)) = Some statements /\
     Forall (passes readOnlyMode) statements).
Proof.
  split.
  - intros H.
    destruct (String.eqb_spec (firstWord sqlString) "EXPLAIN") as [He|He];
      [now left | right].
    assert (Hr : ReachesParser sqlString).
    { unfold validateSqlSafety in H.
      destruct (truthyString sqlString) eqn:Hs; [|discriminate].
      destruct (truthyString (trim sqlString)) eqn:Ht; [|discriminate].
      cbn [negb] in H. fold (firstWord sqlString) in H.
      destruct (arrayIncludes DANGEROUS_OPERATIONS (firstWord sqlString)) eqn:Hd;
        [discriminate|].
      apply String.eqb_neq in He. rewrite He in H.
      destruct (String.eqb (firstWord sqlString) "MERGE") eqn:Hm.
      { now destruct readOnlyMode. }
      destruct (String.eqb (firstWord sqlString) "UPSERT") eqn:Hu.
      { now destruct readOnlyMode. }
      repeat split.
      - intros E. now rewrite E in Ht.
      - intros Hin. apply arrayIncludes_In in Hin. congruence.
      - now apply String.eqb_neq.
      - now apply String.eqb_neq.
      - now apply String.eqb_neq. }
    split; [exact Hr|].
    rewrite (validateSqlSafety_parsed _ _ _ Hr) in H.
    destruct (astify (trim sqlString)) as [|st|sts]; [discriminate| |].
    + exists [st]. split; [reflexivity|]. now apply checkStatements_valid.
    + exists sts. split; [reflexivity|]. now apply checkStatements_valid.
  - intros [He | [Hr [sts [Hsts Hall]]]].
    + now apply validateSqlSafety_explain.
    + rewrite (validateSqlSafety_parsed _ _ _ Hr).
      destruct (astify (trim sqlString)) as [|st|sts']; [discriminate| |];
        injection Hsts as <-; now apply checkStatements_valid.
Qed.



Lemma passes_readOnly (statement : Statement) :
  passes true statement <-> readOnlyType statement.
Proof.
  unfold passes, checkStatement, readOnlyType.
  destruct (option_map toUpperCase (stype statement)) as [t|]; cbn [arrayIncludesOpt].
  - split.
    + destruct (arrayIncludes DANGEROUS_OPERATIONS t); [discriminate|].
      destruct (arrayIncludes ["SELECT"; "WITH"; "EXPLAIN"] t) eqn:E; [|discriminate].
      intros _. exists t. split; [reflexivity | now apply arrayIncludes_In].
    + intros [t' [[= <-] Hin]].
      assert (Hd : arrayIncludes DANGEROUS_OPERATIONS t = false)
        by (simpl in Hin; intuition subst; reflexivity).
      apply arrayIncludes_In in Hin. now rewrite Hd, Hin.
  - split; [discriminate | intros [t [H _]]; discriminate].
Qed.

Lemma passes_readWrite (statement : Statement) :
  passes false statement <-> writeSafe statement.
Proof.
  unfold passes, checkStatement, writeSafe.
  destruct (option_map toUpperCase (stype statement)) as [t|]; cbn [arrayIncludesOpt].
  - destruct (arrayIncludes DANGEROUS_OPERATIONS t) eqn:Hd.
    { split; [discriminate|]. intros [H _].
      apply arrayIncludes_In in Hd. now elim (H t eq_refl). }
    destruct (String.eqb t "UPDATE" || String.eqb t "DELETE") eqn:Hk.
    + assert (Hkind : t = "UPDATE" \/ t = "DELETE").
      { apply orb_true_iff in Hk. rewrite !String.eqb_eq in Hk. exact Hk. }
      destruct (where_ statement) as [w|].
      * destruct (isTrivialWhere w) eqn:Hw.
        -- split; [discriminate|]. intros [_ H].
           destruct (H t eq_refl Hkind) as [w' [[= <-] Hn]].
           now apply isTrivialWhere_spec in Hw.
        -- split; [|reflexivity]. intros _. split.
           ++ intros t' [= <-] Hin. apply arrayIncludes_In in Hin. congruence.
           ++ intros t' [= <-] _. exists w. split; [reflexivity|].
              intros Hn. apply isTrivialWhere_spec in Hn. congruence.
      * split; [discriminate|]. intros [_ H].
        now destruct (H t eq_refl Hkind) as [w' [Hw' _]].
    + split; [|reflexivity]. intros _. split.
      * intros t' [= <-] Hin. apply arrayIncludes_In in Hin. congruence.
      * intros t' [= <-] [-> | ->]; discriminate.
  - split; [|reflexivity]. intros _. split; discriminate.
Qed.

Lemma Forall_iff {A : Type} (P Q : A -> Prop) (l : list A) :
  (forall x, P x <-> Q x) -> Forall P l <-> Forall Q l.
Proof.
  intros H. split; intros HF; eapply Forall_impl; try exact HF;
    intros x Hx; now apply H.
Qed.

(** X4.  Read-only mode accepts a text exactly when its leading word is
    EXPLAIN, or it gets as far as the parser, parses, and the type of
    every statement is SELECT, WITH or EXPLAIN (in any letter case). *)
Theorem read_only_mode_accepts_only_reads
    (astify : string -> Ast) (sqlString : string) :
  validateSqlSafety true astify sqlString = valid <->
  firstWord sqlString = "EXPLAIN" \/
  (ReachesParser sqlString /\
   exists statements,
     statementsOf (astify (trim sqlString)) = Some statements /\
     Forall readOnlyType statements).
Proof.
  rewrite accepted_iff. split; (intros [H | [Hr [sts [Hs Hall]]]]; [now left | right]);
    (split; [assumption|]); exists sts; (split; [assumption|]);
    now apply (Forall_iff _ _ _ passes_readOnly).
Qed.

(** X5.  Read-write mode accepts a text exactly when its leading word is
    EXPLAIN, or it gets as far as the parser, parses, and every statement
    is of a type that is no dangerous operation and, when it is an UPDATE
    or a DELETE, has a WHERE clause that the validator does not detect as
    trivial: the clause is no [bool] node with value true, no [number]
    node, and no [=] between two [number] nodes or two
    [single_quote_string] nodes of equal value, or two [column_ref] nodes
    whose column is the same double-quoted identifier or the same plain
    string.  (A comparison of an unquoted column with itself is not
    detected and passes.) *)
Theorem read_write_mode_accepts_only_guarded_writes
    (astify : string -> Ast) (sqlString : string) :
  validateSqlSafety false astify sqlString = valid <->
  firstWord sqlString = "EXPLAIN" \/
  (ReachesParser sqlString /\
   exists statements,
     statementsOf (astify (trim sqlString)) = Some statements /\
     Forall writeSafe statements).
Proof.
  rewrite accepted_iff. split; (intros [H | [Hr [sts [Hs Hall]]]]; [now left | right]);
    (split; [assumption|]); exists sts; (split; [assumption|]);
    now apply (Forall_iff _ _ _ passes_readWrite).
Qed.

End ValidatorCoverage.

(** ** The environment switch *)

Module EnvironmentFacts.

Import Js JsFacts ValidatorFacts ValidatorCoverage.

(** X6.  Unless [READ_ONLY] is exactly the text [false], the validator
    works in read-only mode: a text that gets as far as the parser and
    has a statement of a type other than SELECT, WITH or EXPLAIN is
    rejected. *)
Theorem read_only_unless_exactly_false
    (env : Env) (astify : string -> Ast) (sqlString : string)
    (statements : list Statement) :
  env "READ_ONLY" <> Some "false" ->
  ReachesParser sqlString ->
  statementsOf (astify (trim sqlString)) = Some statements ->
  Exists (fun statement => ~ readOnlyType statement) statements ->
  isValid (validateSqlSafety (isReadOnlyMode env) astify sqlString) = false.
Proof.
  intros Henv Hreach Hsts Hbad.
  assert (Hmode : isReadOnlyMode env = true).
  { unfold isReadOnlyMode, isNotStr.
    destruct (isStr (env "READ_ONLY") "false") eqn:E; [|reflexivity].
    apply isStr_spec in E. contradiction. }
  rewrite Hmode.
  destruct (validateSqlSafety_cases true astify sqlString) as [Hv | [msg [-> _]]];
    [|reflexivity].
  exfalso. apply accepted_iff in Hv.
  destruct Hv as [He | [_ [sts [Hsts' Hall]]]].
  - destruct Hreach as (_ & _ & Hne & _). contradiction.
  - rewrite Hsts in Hsts'. injection Hsts' as <-.
    apply Exists_exists in Hbad. destruct Hbad as [st [Hin Hst]].
    rewrite Forall_forall in Hall. now apply Hst, passes_readOnly, Hall.
Qed.

Lemma read_only_unless_exactly_false_witness :
  isValid (validateSqlSafety (isReadOnlyMode exampleEnv) exampleAstify
             "DELETE FROM users WHERE id = 123") = false.
Proof.
  apply (read_only_unless_exactly_false exampleEnv exampleAstify
           "DELETE FROM users WHERE id = 123"
           [mkStatement (Some "delete")
              (Some (equality (columnRef "id") (leaf "number" (VNumber 123))))]).
  - discriminate.
  - reaches_parser.
  - reflexivity.
  - apply Exists_cons_hd. intros [t [Ht Hin]]. vm_compute in Ht.
    injection Ht as <-. simpl in Hin. intuition discriminate.
Defined.

End EnvironmentFacts.

(** ** More on the pagination rewriter *)

Module PaginationCoverage.

Import Js JsFacts PaginationFacts.

(** *** The ends of a text *)

Lemma lastChar_dropEnd (f : ascii -> bool) (s : string) (c : ascii) :
  lastChar (dropEnd f s) = Some c -> f c = false.
Proof.
  induction s as [|x r IH]; simpl; [discriminate|].
  destruct (dropEnd f r) as [|y r'] eqn:E.
  - destruct (f x) eqn:Hx; simpl; [discriminate | now intros [= <-]].
  - intros H. apply IH. exact H.
Qed.

Lemma firstChar_dropStart (f : ascii -> bool) (s : string) (c : ascii) :
  firstChar (dropStart f s) = Some c -> f c = false.
Proof.
  induction s as [|x r IH]; simpl; [discriminate|].
  destruct (f x) eqn:Hx; [exact IH | now intros [= <-]].
Qed.

Lemma firstChar_dropEnd (f : ascii -> bool) (s : string) (c : ascii) :
  firstChar (dropEnd f s) = Some c -> firstChar s = Some c.
Proof.
  destruct s as [|x r]; simpl; [discriminate|].
  destruct (dropEnd f r); [destruct (f x)|]; simpl; congruence.
Qed.

Lemma lastChar_split (s : string) (c : ascii) :
  lastChar s = Some c -> exists r, s = r ++ String c EmptyString.
Proof.
  induction s as [|x r IH]; [discriminate|].
  destruct r as [|y r'].
  - intros [= <-]. now exists EmptyString.
  - intros H. destruct (IH H) as [q Hq]. exists (String x q). simpl. now rewrite <- Hq.
Qed.

Lemma lastChar_app (a b : string) :
  b <> EmptyString -> lastChar (a ++ b) = lastChar b.
Proof.
  intros Hb. induction a as [|x a IH]; [reflexivity|].
  simpl. destruct (a ++ b) eqn:E; [|exact IH].
  destruct a; simpl in E; [contradiction | discriminate].
Qed.

Lemma lastChar_some (s : string) :
  s <> EmptyString -> exists c, lastChar s = Some c.
Proof.
  induction s as [|x r IH]; [contradiction|]. intros _.
  destruct r as [|y r']; [now exists x|]. apply IH. discriminate.
Qed.

Lemma dropEnd_fixed (f : ascii -> bool) (s : string) (c : ascii) :
  lastChar s = Some c -> f c = false -> dropEnd f s = s.
Proof.
  intros Hl Hc. destruct (lastChar_split _ _ Hl) as [r ->].
  now rewrite dropEnd_keep.
Qed.

Lemma dropStart_fixed (f : ascii -> bool) (s : string) (c : ascii) :
  firstChar s = Some c -> f c = false -> dropStart f s = s.
Proof. destruct s; simpl; [discriminate|]. now intros [= ->] ->. Qed.

Lemma dropEnd_idempotent (f : ascii -> bool) (s : string) :
  dropEnd f (dropEnd f s) = dropEnd f s.
Proof.
  destruct (dropEnd f s) as [|x r] eqn:E; [reflexivity|]. rewrite <- E.
  destruct (lastChar_some (dropEnd f s)) as [c Hc]; [now rewrite E|].
  now apply dropEnd_fixed with c; [|apply lastChar_dropEnd with s].
Qed.

Lemma trim_idempotent (s : string) : trim (trim s) = trim s.
Proof.
  unfold trim at 1.
  assert (H : dropStart isWhiteSpace (trim s) = trim s).
  { destruct (trim s) as [|x r] eqn:E; [reflexivity|]. rewrite <- E.
    apply dropStart_fixed with x; [now rewrite E|].
    apply firstChar_dropStart with s, firstChar_dropEnd with isWhiteSpace.
    fold (trim s). now rewrite E. }
  rewrite H. apply dropEnd_idempotent.
Qed.

Lemma cleanSql_trim (s : string) : cleanSql (trim s) = cleanSql s.
Proof. unfold cleanSql. now rewrite trim_idempotent. Qed.

Lemma cleanSql_firstChar (s : string) (c : ascii) :
  firstChar (cleanSql s) = Some c -> isWhiteSpace c = false.
Proof.
  intros H. unfold cleanSql, stripTrailingSemicolons, trim in H.
  now apply firstChar_dropEnd, firstChar_dropEnd, firstChar_dropStart in H.
Qed.

(** X7.  The cleaned text never ends with a semicolon and never starts
    with white space. *)
Theorem cleaned_sql_has_clean_ends (s : string) :
  lastChar (cleanSql s) <> Some ";"%char /\
  forall c, firstChar (cleanSql s) = Some c -> isWhiteSpace c = false.
Proof.
  split.
  - intros H. apply lastChar_dropEnd in H. discriminate.
  - apply cleanSql_firstChar.
Qed.

Lemma cleaned_sql_witness :
  lastChar (cleanSql "  SELECT 1 ;; ") <> Some ";"%char /\
  isWhiteSpace "S" = false.
Proof.
  destruct (cleaned_sql_has_clean_ends "  SELECT 1 ;; ") as [Hlast Hfirst].
  split; [exact Hlast | apply Hfirst; reflexivity].
Defined.

(** *** The shape of the rewritten text *)

Lemma applyPagination_shape cfg s n m :
  let p := applyPagination cfg s n m in
  sql p = cleanSql s \/
  (mentionsLimit s = false /\
   exists size,
     sql p = cleanSql s ++ " LIMIT " ++ numberToString size \/
     exists skip,
       sql p = (cleanSql s ++ " LIMIT " ++ numberToString size) ++
               " OFFSET " ++ numberToString skip).
Proof.
  cbv zeta. unfold applyPagination. rewrite cleaned_mentionsLimit.
  destruct (mentionsLimit s); [now left|].
  destruct (isSingleRowAggregate _); [now left|].
  destruct (negb (AUTO_LIMIT cfg) && falsy n); [now left|].
  right. split; [reflexivity|]. eexists.
  destruct (0 <? orElse m 0); cbn [sql]; [right; eexists|left]; reflexivity.
Qed.

Lemma applyPagination_suffix cfg s n m :
  exists suffix,
    sql (applyPagination cfg s n m) = cleanSql s ++ suffix /\
    (suffix = EmptyString \/ startsWith suffix " LIMIT " = true).
Proof.
  destruct (applyPagination_shape cfg s n m) as [H | [_ [size [H | [skip H]]]]].
  - exists EmptyString. rewrite H, append_empty_r. split; [reflexivity | now left].
  - exists (" LIMIT " ++ numberToString size). split; [exact H | right].
    apply prefix_spec. eexists. reflexivity.
  - exists (" LIMIT " ++ numberToString size ++ " OFFSET " ++ numberToString skip).
    split.
    + rewrite H. now rewrite !append_assoc.
    + right. apply prefix_spec. eexists. reflexivity.
Qed.

(** X8.  The rewriter only appends: its text is the cleaned input,
    followed by nothing or by a clause that starts with [ LIMIT ]. *)
Theorem rewriter_only_appends cfg s n m :
  exists suffix,
    sql (applyPagination cfg s n m) = cleanSql s ++ suffix /\
    (suffix = EmptyString \/ startsWith suffix " LIMIT " = true).
Proof. apply applyPagination_suffix. Qed.

(** *** Decimal texts end with a digit *)

Lemma digit_is_kept (c : ascii) :
  isDigit c = true -> isWhiteSpace c = false /\ isSemicolon c = false.
Proof. destruct c as [[] [] [] [] [] [] [] []]; try discriminate; now split. Qed.

Lemma string_of_uint_last (d : Decimal.uint) :
  d <> Decimal.Nil ->
  exists c, lastChar (NilEmpty.string_of_uint d) = Some c /\ isDigit c = true.
Proof.
  induction d as [|d IH|d IH|d IH|d IH|d IH|d IH|d IH|d IH|d IH|d IH];
    [contradiction|..]; intros _; simpl;
    (destruct d;
     [eexists; split; reflexivity
     | destruct IH as [c [Hc Hd]]; [discriminate | exists c; split; [exact Hc | exact Hd]]..]).
Qed.

Lemma numberToString_last (n : Z) :
  exists c, lastChar (numberToString n) = Some c /\ isDigit c = true.
Proof.
  unfold numberToString.
  assert (H : forall d,
             exists c, lastChar (NilZero.string_of_uint d) = Some c /\
                       isDigit c = true).
  { intros d. destruct d; [now exists "0"%char | apply string_of_uint_last; discriminate..]. }
  destruct (Z.to_int n) as [d|d]; simpl.
  - apply H.
  - destruct (H d) as [c [Hc Hd]]. exists c. split; [|exact Hd].
    destruct (NilZero.string_of_uint d); [discriminate | exact Hc].
Qed.

Lemma numberToString_not_empty (n : Z) : numberToString n <> EmptyString.
Proof.
  destruct (numberToString_last n) as [c [Hc _]]. intros E. now rewrite E in Hc.
Qed.

Lemma toUpperCase_app (a b : string) :
  toUpperCase (a ++ b) = toUpperCase a ++ toUpperCase b.
Proof. induction a as [|x a IH]; simpl; [reflexivity | now rewrite IH]. Qed.

(** X9.  When the cleaned text is not empty, a text to which the rewriter
    appended a clause is a fixed point of the rewriter: whatever the later
    settings, page size and offset, it comes back as it is, without a
    second LIMIT.  (From an empty cleaned text the first pass gives
    [ LIMIT n], which the second pass trims.) *)
Theorem rewritten_sql_is_not_rewritten_again cfg s n m cfg' n' m' :
  cleanSql s <> EmptyString ->
  sql (applyPagination cfg s n m) <> cleanSql s ->
  sql (applyPagination cfg' (sql (applyPagination cfg s n m)) n' m') =
  sql (applyPagination cfg s n m).
Proof.
  intros Hne Happ.
  destruct (applyPagination_shape cfg s n m) as [H | [_ [size H]]];
    [contradiction|].
  set (t := sql (applyPagination cfg s n m)) in *.
  assert (Hfirst : exists c, firstChar t = Some c /\ isWhiteSpace c = false).
  { destruct (cleanSql s) as [|x r] eqn:E; [contradiction|].
    exists x. split.
    - destruct H as [-> | [skip ->]]; reflexivity.
    - apply cleanSql_firstChar with s. now rewrite E. }
  assert (Hlast : exists c, lastChar t = Some c /\ isDigit c = true).
  { destruct H as [-> | [skip ->]].
    - destruct (numberToString_last size) as [c [Hc Hd]]. exists c.
      split; [|exact Hd]. rewrite <- append_assoc.
      rewrite lastChar_app; [exact Hc | apply numberToString_not_empty].
    - destruct (numberToString_last skip) as [c [Hc Hd]]. exists c.
      split; [|exact Hd]. rewrite <- append_assoc.
      rewrite lastChar_app; [exact Hc | apply numberToString_not_empty]. }
  assert (Hlimit : mentionsLimit t = true).
  { unfold mentionsLimit. apply orb_true_iff. left.
    apply includes_spec.
    destruct H as [-> | [skip ->]]; rewrite !toUpperCase_app.
    - exists (toUpperCase (cleanSql s) ++ " "), (" " ++ toUpperCase (numberToString size)).
      now rewrite !append_assoc.
    - exists (toUpperCase (cleanSql s) ++ " "),
        (" " ++ toUpperCase (numberToString size) ++
         toUpperCase " OFFSET " ++ toUpperCase (numberToString skip)).
      now rewrite !append_assoc. }
  rewrite (applyPagination_limited _ _ _ _ Hlimit). cbn [sql].
  destruct Hfirst as [c [Hc Hws]]. destruct Hlast as [d [Hd Hdigit]].
  destruct (digit_is_kept _ Hdigit) as [Hdw Hds].
  unfold cleanSql, stripTrailingSemicolons, trim.
  rewrite (dropStart_fixed _ _ _ Hc Hws).
  rewrite (dropEnd_fixed _ _ _ Hd Hdw).
  now rewrite (dropEnd_fixed _ _ _ Hd Hds).
Qed.

Lemma rewritten_sql_witness :
  sql (applyPagination cappedConfig
         (sql (applyPagination defaultConfig "SELECT * FROM users;" (Some 2) (Some 40)))
         None (Some 7)) =
  sql (applyPagination defaultConfig "SELECT * FROM users;" (Some 2) (Some 40)).
Proof.
  apply (rewritten_sql_is_not_rewritten_again defaultConfig
           "SELECT * FROM users;" (Some 2) (Some 40) cappedConfig None (Some 7)).
  - vm_compute. discriminate.
  - vm_compute. discriminate.
Defined.

End PaginationCoverage.

(** ** More on the sanitizer and the query tool *)

Module QueryToolCoverage.

Import Js JsFacts PaginationFacts PaginationCoverage ValidatorFacts
       ValidatorCoverage QueryToolFacts.

Lemma firstSplitWord_prefix (t : string) :
  String.prefix (firstSplitWord t) t = true.
Proof.
  induction t as [|c r IH]; simpl; [reflexivity|].
  destruct (isWhiteSpace c); simpl; [reflexivity|].
  now destruct (Ascii.ascii_dec c c).
Qed.

(** X10.  A text whose leading word is SELECT, WITH or EXPLAIN is treated
    as a read-only query. *)
Theorem leading_read_keyword_takes_read_path (sqlString : string) :
  In (firstWord sqlString) ["SELECT"; "WITH"; "EXPLAIN"] ->
  isReadOnlyQuery sqlString = true.
Proof.
  intros H. unfold isReadOnlyQuery, startsWith.
  pose proof (firstSplitWord_prefix (toUpperCase (trim sqlString))) as Hp.
  fold (firstWord sqlString) in Hp.
  simpl in H. destruct H as [H | [H | [H | []]]]; rewrite <- H in Hp; rewrite Hp;
    now rewrite ?orb_true_r.
Qed.

Lemma leading_read_keyword_witness :
  isReadOnlyQuery "  with t as (select 1) select * from t" = true.
Proof.
  apply (leading_read_keyword_takes_read_path
           "  with t as (select 1) select * from t").
  right. left. reflexivity.
Defined.

(** X11.  The first parameter that is no scalar decides the sanitizer's
    answer: the finiteness error when it is a number, the type error
    otherwise; what follows it is not looked at. *)
Theorem first_offending_parameter_decides
    (good : list JsValue) (bad : JsValue) (rest : list JsValue) :
  Forall (fun v => isScalar v = true) good ->
  isScalar bad = false ->
  validateParameters (good ++ bad :: rest)%list =
  Some (match bad with
        | JNumber _ => parameterFiniteError
        | _ => parameterTypeError
        end).
Proof.
  intros Hgood Hbad. induction Hgood as [|v good Hv _ IH]; simpl.
  - destruct bad as [| | | n | | | | | |]; try discriminate; try reflexivity.
    destruct n; try discriminate; reflexivity.
  - apply checkParameter_scalar in Hv. now rewrite Hv.
Qed.

Lemma first_offending_parameter_witness :
  validateParameters [JString "a"; JNumber NaN; JObject []] =
  Some parameterFiniteError.
Proof.
  apply (first_offending_parameter_decides [JString "a"] (JNumber NaN) [JObject []]).
  - repeat constructor.
  - reflexivity.
Defined.

(** *** White space in reported failures *)

Lemma collapse_no_leading_space (s : string) :
  firstChar (collapseWhiteSpace true s) <> Some " "%char.
Proof.
  induction s as [|c r IH]; simpl; [discriminate|].
  destruct (isWhiteSpace c) eqn:E; [exact IH|].
  simpl. intros [= ->]. discriminate.
Qed.

Lemma collapse_plain (b : bool) (s : string) :
  allChars plainChar (collapseWhiteSpace b s) = true.
Proof.
  revert b. induction s as [|c r IH]; intros b; simpl; [reflexivity|].
  destruct (isWhiteSpace c) eqn:E.
  - destruct b; simpl; now rewrite IH.
  - simpl. unfold plainChar at 1. now rewrite E, IH.
Qed.

Lemma prefix_cons (a : ascii) (p : string) (c : ascii) (t : string) :
  String.prefix (String a p) (String c t) =
  if Ascii.ascii_dec a c then String.prefix p t else false.
Proof. reflexivity. Qed.

Lemma includes_double_space (c : ascii) (t : string) :
  includes (String c t) "  " =
  (Ascii.eqb c " " && match firstChar t with
                      | Some d => Ascii.eqb d " "
                      | None => false
                      end) || includes t "  ".
Proof.
  cbn [includes]. f_equal. rewrite prefix_cons.
  destruct (Ascii.ascii_dec " " c) as [<- | Hne].
  - rewrite Ascii.eqb_refl. destruct t as [|d t']; [reflexivity|].
    rewrite prefix_cons. cbn [firstChar andb].
    destruct (Ascii.ascii_dec " " d) as [<- | Hd].
    + rewrite Ascii.eqb_refl. now destruct t'.
    + symmetry. apply Ascii.eqb_neq. congruence.
  - replace (Ascii.eqb c " ") with false; [reflexivity|].
    symmetry. apply Ascii.eqb_neq. congruence.
Qed.

Lemma collapse_no_double_space (b : bool) (s : string) :
  includes (collapseWhiteSpace b s) "  " = false.
Proof.
  revert b. induction s as [|c r IH]; intros b; simpl; [reflexivity|].
  destruct (isWhiteSpace c) eqn:E.
  - destruct b; [apply IH|]. rewrite includes_double_space, IH.
    pose proof (collapse_no_leading_space r) as Hl.
    destruct (firstChar (collapseWhiteSpace true r)) as [d|]; [|reflexivity].
    destruct (Ascii.eqb_spec d " ") as [->|]; [now elim Hl | reflexivity].
  - rewrite includes_double_space, IH.
    destruct (Ascii.eqb_spec c " ") as [->|]; [discriminate | reflexivity].
Qed.

Lemma allChars_trim (f : ascii -> bool) (s : string) :
  allChars f s = true -> allChars f (trim s) = true.
Proof.
  intros H. unfold trim.
  destruct (dropStart_split isWhiteSpace s) as [pre [Hs _]].
  destruct (dropEnd_split isWhiteSpace (dropStart isWhiteSpace s)) as [post [Ht _]].
  rewrite Hs, Ht, !allChars_app in H.
  apply andb_true_iff in H. destruct H as [_ H].
  apply andb_true_iff in H. now destruct H.
Qed.

Lemma includes_trim_false (s p : string) :
  includes s p = false -> includes (trim s) p = false.
Proof.
  intros H. destruct (includes (trim s) p) eqn:E; [|reflexivity].
  unfold trim in E. apply includes_of_dropEnd, includes_of_dropStart in E. congruence.
Qed.

(** The error text of the [catch] block: its only white space is single
    spaces between other characters. *)
Lemma normalized_message (text : string) :
  let msg := trim (collapseWhiteSpace false text) in
  allChars plainChar msg = true /\
  includes msg "  " = false /\
  firstChar msg <> Some " "%char /\
  lastChar msg <> Some " "%char.
Proof.
  cbv zeta. repeat split.
  - apply allChars_trim, collapse_plain.
  - apply includes_trim_false, collapse_no_double_space.
  - intros H. unfold trim in H.
    apply firstChar_dropEnd, firstChar_dropStart in H. discriminate.
  - intros H. unfold trim in H. apply lastChar_dropEnd in H. discriminate.
Qed.

Section Tool.

Variable cfg : QueryConfig.
Variable readOnlyMode : bool.
Variable astify : string -> Ast.
Context {Row : Type}.
Variable payloadByteLength : list Row -> Z.
Context {RawInput : Type}.
Variable validateInput : RawInput -> QueryInput + string.
Variable poolQuery : GatewayCall -> QueryResult Row + Thrown.

(** What [queryTool] does with a request that passed the three checks. *)
Lemma queryTool_accepted (input : RawInput) (validatedInput : QueryInput) :
  validateInput input = inl validatedInput ->
  isValid (validateSqlSafety readOnlyMode astify (inSql validatedInput)) = true ->
  validateParameters (paramsOf validatedInput) = None ->
  queryTool cfg readOnlyMode astify payloadByteLength validateInput poolQuery input =
  let trimmedSql := trim (inSql validatedInput) in
  let call := gatewayCall (paramsOf validatedInput) in
  if isReadOnlyQuery trimmedSql then
    let p := applyPagination cfg trimmedSql
               (inPageSize validatedInput) (inOffset validatedInput) in
    match poolQuery (call (sql p)) with
    | inr e => (catchOutput e, [call (sql p)])
    | inl result =>
        let payloadSize := payloadByteLength (resultRows result) in
        if MAX_PAYLOAD_SIZE cfg <? payloadSize then
          (errorOutput (Some (payloadError payloadSize (MAX_PAYLOAD_SIZE cfg))),
           [call (sql p)])
        else
          let n := Z.of_nat (List.length (resultRows result)) in
          (mkOutput (Some (resultRows result)) (Some n)
             (Some (mkPageInfo (n =? actualPageSize p)
                      (actualPageSize p) (actualOffset p)))
             None None None,
           [call (sql p)])
    end
  else
    match poolQuery (call (cleanSql (inSql validatedInput))) with
    | inr e => (catchOutput e, [call (cleanSql (inSql validatedInput))])
    | inl result =>
        (mkOutput None
           (Some (match resultRowCount result with
                  | Some n => n
                  | None => 0
                  end))
           None None None None,
         [call (cleanSql (inSql validatedInput))])
    end.
Proof.
  intros Hin Hvalid Hparams. unfold queryTool. rewrite Hin, Hvalid. cbn [negb].
  rewrite Hparams.
  replace (if (0 <? List.length (paramsOf validatedInput))%nat
           then @None string else None) with (@None string)
    by (now destruct (0 <? List.length (paramsOf validatedInput))%nat).
  reflexivity.
Qed.

(** Every request ends in one of four ways. *)
Lemma queryTool_cases (input : RawInput) :
  (exists msg, validateInput input = inr msg /\
     queryTool cfg readOnlyMode astify payloadByteLength validateInput poolQuery input =
     (errorOutput (Some ("Input validation failed: " ++ msg)), [])) \/
  (exists validatedInput msg,
     validateInput input = inl validatedInput /\
     validateSqlSafety readOnlyMode astify (inSql validatedInput) = invalid msg /\
     msg <> EmptyString /\
     queryTool cfg readOnlyMode astify payloadByteLength validateInput poolQuery input =
     (errorOutput (Some msg), [])) \/
  (exists validatedInput msg,
     validateInput input = inl validatedInput /\
     isValid (validateSqlSafety readOnlyMode astify (inSql validatedInput)) = true /\
     validateParameters (paramsOf validatedInput) = Some msg /\
     queryTool cfg readOnlyMode astify payloadByteLength validateInput poolQuery input =
     (errorOutput (Some msg), [])) \/
  (exists validatedInput,
     validateInput input = inl validatedInput /\
     isValid (validateSqlSafety readOnlyMode astify (inSql validatedInput)) = true /\
     validateParameters (paramsOf validatedInput) = None).
Proof.
  destruct (validateInput input) as [vi | msg] eqn:Hin.
  - right.
    destruct (validateSqlSafety_cases readOnlyMode astify (inSql vi))
      as [Hv | [msg [Hv Hne]]].
    + right.
      destruct (validateParameters (paramsOf vi)) as [msg|] eqn:Hp.
      * left. exists vi, msg.
        repeat split; try assumption; try (rewrite Hv; reflexivity).
        unfold queryTool. rewrite Hin, Hv. cbn [negb isValid valid].
        rewrite Hp.
        destruct (paramsOf vi); [discriminate | reflexivity].
      * right. exists vi. repeat split; try assumption. now rewrite Hv.
    + left. exists vi, msg. repeat split; try assumption.
      unfold queryTool. now rewrite Hin, Hv.
  - left. exists msg. split; [reflexivity|]. unfold queryTool. now rewrite Hin.
Qed.

(** X12.  The execution gateway is called at most once per request, and
    only for a request that passed the shape check, the SQL validation
    and the sanitizer; the parameters go out unchanged (left out when
    there are none), and the text is the cleaned SQL of the request,
    followed by nothing or by a clause that starts with [ LIMIT ]. *)
Theorem gateway_is_reached_once_by_accepted_requests (input : RawInput) :
  let calls := snd (queryTool cfg readOnlyMode astify payloadByteLength
                      validateInput poolQuery input) in
  calls = [] \/
  exists validatedInput suffix,
    validateInput input = inl validatedInput /\
    isValid (validateSqlSafety readOnlyMode astify (inSql validatedInput)) = true /\
    Forall (fun v => isScalar v = true) (paramsOf validatedInput) /\
    calls = [gatewayCall (paramsOf validatedInput)
               (cleanSql (inSql validatedInput) ++ suffix)] /\
    (suffix = EmptyString \/ startsWith suffix " LIMIT " = true).
Proof.
  cbv zeta.
  destruct (queryTool_cases input)
    as [[msg [_ ->]] | [(vi & msg & _ & _ & _ & ->) | [(vi & msg & _ & _ & _ & ->)
       | (vi & Hin & Hvalid & Hparams)]]]; try (now left).
  right. rewrite (queryTool_accepted _ _ Hin Hvalid Hparams). cbv zeta.
  destruct (isReadOnlyQuery (trim (inSql vi))).
  - destruct (applyPagination_suffix cfg (trim (inSql vi)) (inPageSize vi) (inOffset vi))
      as [suffix [Hsql Hsuffix]].
    rewrite cleanSql_trim in Hsql.
    exists vi, suffix. repeat split; try assumption.
    + now apply validateParameters_accepts.
    + rewrite Hsql. destruct (poolQuery _) as [result | e]; [|reflexivity].
      now destruct (MAX_PAYLOAD_SIZE cfg <? _).
  - exists vi, EmptyString. repeat split; try assumption.
    + now apply validateParameters_accepts.
    + rewrite append_empty_r. now destruct (poolQuery _).
    + now left.
Qed.

(** X13.  The write path: an accepted text that does not start with SELECT,
    WITH or EXPLAIN is sent as the cleaned text, without LIMIT whatever
    page size and offset were asked for, and the answer holds the row
    count only, 0 when the gateway reports none. *)
Theorem write_path_sends_cleaned_sql_and_reports_row_count
    (input : RawInput) (validatedInput : QueryInput) (result : QueryResult Row) :
  validateInput input = inl validatedInput ->
  isValid (validateSqlSafety readOnlyMode astify (inSql validatedInput)) = true ->
  validateParameters (paramsOf validatedInput) = None ->
  isReadOnlyQuery (trim (inSql validatedInput)) = false ->
  poolQuery (gatewayCall (paramsOf validatedInput) (cleanSql (inSql validatedInput)))
    = inl result ->
  queryTool cfg readOnlyMode astify payloadByteLength validateInput poolQuery input =
  (mkOutput None (Some (nullish (resultRowCount result) 0)) None None None None,
   [gatewayCall (paramsOf validatedInput) (cleanSql (inSql validatedInput))]).
Proof.
  intros Hin Hvalid Hparams Hwrite Hquery.
  rewrite (queryTool_accepted _ _ Hin Hvalid Hparams). cbv zeta.
  now rewrite Hwrite, Hquery.
Qed.

(** X14.  When the gateway rejects the call, the answer is built by the
    [catch] block: no rows and no row count, a code that is never empty,
    and an error text whose only white space is single spaces between
    other characters. *)
Theorem gateway_failure_is_reported_normalized
    (input : RawInput) (call : GatewayCall) (e : Thrown) :
  let run := queryTool cfg readOnlyMode astify payloadByteLength
               validateInput poolQuery input in
  snd run = [call] ->
  poolQuery call = inr e ->
  fst run = catchOutput e /\
  rows (fst run) = None /\ rowCount (fst run) = None /\
  (exists c, code (fst run) = Some c /\ c <> EmptyString) /\
  exists msg,
    outError (fst run) = Some msg /\
    allChars plainChar msg = true /\
    includes msg "  " = false /\
    firstChar msg <> Some " "%char /\
    lastChar msg <> Some " "%char.
Proof.
  cbv zeta. intros Hcalls Hthrow.
  assert (Hrun : fst (queryTool cfg readOnlyMode astify payloadByteLength
                        validateInput poolQuery input) = catchOutput e).
  { destruct (queryTool_cases input)
      as [[msg [_ H]] | [(vi & msg & _ & _ & _ & H) | [(vi & msg & _ & _ & _ & H)
         | (vi & Hin & Hvalid & Hparams)]]];
      try (rewrite H in Hcalls; discriminate).
    rewrite (queryTool_accepted _ _ Hin Hvalid Hparams) in *. cbv zeta in *.
    destruct (isReadOnlyQuery (trim (inSql vi))).
    - destruct (poolQuery (gatewayCall (paramsOf vi) _)) as [result | e'] eqn:Hq.
      + destruct (MAX_PAYLOAD_SIZE cfg <? _); cbn [snd] in Hcalls;
          injection Hcalls as <-; congruence.
      + cbn [snd] in Hcalls. injection Hcalls as <-.
        rewrite Hq in Hthrow. now injection Hthrow as ->.
    - destruct (poolQuery (gatewayCall (paramsOf vi) _)) as [result | e'] eqn:Hq.
      + cbn [snd] in Hcalls. injection Hcalls as <-. congruence.
      + cbn [snd] in Hcalls. injection Hcalls as <-.
        rewrite Hq in Hthrow. now injection Hthrow as ->. }
  rewrite Hrun. unfold catchOutput. cbn [rows rowCount code outError].
  repeat split.
  - destruct (pgCode e) as [c|]; [|eexists; split; [reflexivity | discriminate]].
    destruct c; eexists; split; try reflexivity; discriminate.
  - eexists. split; [reflexivity|]. apply normalized_message.
Qed.

(** X15.  A request that never reached the gateway was rejected with an
    error text that is not empty, and the tool wrapper turns that answer
    into an error response with the text [Error: ] and the reason. *)
Theorem rejection_before_execution_is_flagged
    (stringify : QueryOutput Row -> string) (input : RawInput) :
  let run := queryTool cfg readOnlyMode astify payloadByteLength
               validateInput poolQuery input in
  snd run = [] ->
  exists msg,
    outError (fst run) = Some msg /\ msg <> EmptyString /\
    rows (fst run) = None /\ rowCount (fst run) = None /\
    wrapTool outError stringify (fst run) = mkToolResponse ("Error: " ++ msg) true.
Proof.
  cbv zeta. intros Hcalls.
  assert (H : exists msg, msg <> EmptyString /\
              fst (queryTool cfg readOnlyMode astify payloadByteLength
                     validateInput poolQuery input) = errorOutput (Some msg)).
  { destruct (queryTool_cases input)
      as [[msg [_ H]] | [(vi & msg & _ & _ & Hne & H) | [(vi & msg & _ & _ & Hp & H)
         | (vi & Hin & Hvalid & Hparams)]]].
    - eexists. rewrite H. split; [|reflexivity]. cbn. discriminate.
    - exists msg. now rewrite H.
    - exists msg. rewrite H. split; [|reflexivity].
      destruct (validateParameters_error _ _ Hp) as [-> | ->]; discriminate.
    - exfalso. rewrite (queryTool_accepted _ _ Hin Hvalid Hparams) in Hcalls.
      cbv zeta in Hcalls.
      destruct (isReadOnlyQuery _); destruct (poolQuery _); try discriminate.
      now destruct (MAX_PAYLOAD_SIZE cfg <? _). }
  destruct H as [msg [Hne ->]]. exists msg. repeat split; try assumption.
  unfold wrapTool, errorOutput. cbn [outError truthyError].
  now rewrite (truthyString_true _ Hne).
Qed.

End Tool.

Lemma write_path_witness :
  queryTool defaultConfig false exampleAstify examplePayload
    exampleValidateInput examplePool
    (mkQueryInput "  DELETE FROM users WHERE id = 123 " None (Some 5) None) =
  (mkOutput None (Some 2) None None None None,
   [("DELETE FROM users WHERE id = 123", None)]).
Proof.
  apply (write_path_sends_cleaned_sql_and_reports_row_count
           defaultConfig false exampleAstify examplePayload
           exampleValidateInput examplePool
           (mkQueryInput "  DELETE FROM users WHERE id = 123 " None (Some 5) None)
           (mkQueryInput "  DELETE FROM users WHERE id = 123 " None (Some 5) None)
           (mkQueryResult [1; 2] (Some 2)));
    reflexivity.
Defined.

Lemma gateway_failure_witness :
  outError (fst (queryTool defaultConfig true exampleAstify examplePayload
                   exampleValidateInput failingPool
                   (mkQueryInput "SELECT * FROM users" None None None))) =
  Some "relation does not exist".
Proof.
  destruct (gateway_failure_is_reported_normalized
              defaultConfig true exampleAstify examplePayload
              exampleValidateInput failingPool
              (mkQueryInput "SELECT * FROM users" None None None)
              ("SELECT * FROM users LIMIT 100", None)
              (mkThrown true "relation  does
 not exist " None None) eq_refl eq_refl) as [H _].
  rewrite H. reflexivity.
Defined.

Lemma rejection_before_execution_witness :
  wrapTool outError (fun _ => EmptyString)
    (fst (queryTool defaultConfig true exampleAstify examplePayload
            exampleValidateInput examplePool
            (mkQueryInput "DROP TABLE users" None None None))) =
  mkToolResponse "Error: Dangerous operation 'DROP' is not allowed" true.
Proof.
  destruct (rejection_before_execution_is_flagged
              defaultConfig true exampleAstify examplePayload
              exampleValidateInput examplePool (fun _ => EmptyString)
              (mkQueryInput "DROP TABLE users" None None None) eq_refl)
    as [msg [Hmsg [_ [_ [_ H]]]]].
  rewrite H. vm_compute in Hmsg. now injection Hmsg as <-.
Defined.

End QueryToolCoverage.

(** ** The EXPLAIN tool *)

Module ExplainFacts.

Import Js JsFacts PaginationFacts.

(** A word that neither starts nor ends with white space is in the
    trimmed text exactly when it is in the whole text. *)
Lemma includes_trim (c : ascii) (mid : string) (d : ascii) (s : string) :
  isWhiteSpace c = false -> isWhiteSpace d = false ->
  includes (toUpperCase (trim s)) (String c (mid ++ String d EmptyString)) =
  includes (toUpperCase s) (String c (mid ++ String d EmptyString)).
Proof.
  intros Hc Hd. rewrite toUpperCase_trim. unfold trim.
  apply eq_true_iff_eq. split; intros H.
  - now apply includes_of_dropEnd, includes_of_dropStart in H.
  - change (String c (mid ++ String d EmptyString))
      with (String c mid ++ String d EmptyString).
    apply includes_dropEnd; [exact Hd|].
    apply includes_dropStart; [exact Hc | exact H].
Qed.

Lemma explainForbidden_whole_text (s : string) :
  explainForbidden s =
  existsb (includes (toUpperCase s))
    ["INSERT"; "UPDATE"; "DELETE"; "DROP"; "CREATE"; "ALTER"; "TRUNCATE"].
Proof.
  unfold explainForbidden. cbn [existsb].
  rewrite (includes_trim "I" "NSER" "T"), (includes_trim "U" "PDAT" "E"),
    (includes_trim "D" "ELET" "E"), (includes_trim "D" "RO" "P"),
    (includes_trim "C" "REAT" "E"), (includes_trim "A" "LTE" "R"),
    (includes_trim "T" "RUNCAT" "E") by reflexivity.
  now rewrite orb_false_r, !orb_assoc.
Qed.

Lemma allChars_join (f : ascii -> bool) (sep : string) (items : list string) :
  allChars f sep = true ->
  Forall (fun item => allChars f item = true) items ->
  allChars f (join sep items) = true.
Proof.
  intros Hsep H. induction H as [|x rest Hx Hrest IH]; [reflexivity|].
  destruct rest as [|y rest']; [exact Hx|].
  change (join sep (x :: y :: rest')) with (x ++ sep ++ join sep (y :: rest')).
  now rewrite !allChars_app, Hx, Hsep, IH.
Qed.

Lemma explainOptions_chars (validatedInput : ExplainInput) :
  Forall (fun option => allChars optionChar option = true)
         (explainOptions validatedInput).
Proof.
  unfold explainOptions.
  apply Forall_app; split; [|apply Forall_app; split; [|apply Forall_app; split]].
  - destruct (truthyBool _); [constructor; [reflexivity|] |]; constructor.
  - destruct (truthyBool _); [constructor; [reflexivity|] |]; constructor.
  - destruct (notFalse _); [constructor; [reflexivity|] |]; constructor.
  - destruct (exFormat validatedInput) as [format|]; [|constructor].
    destruct (truthyString format); [|constructor]. cbv zeta.
    destruct (arrayIncludes validFormats (toUpperCase format)) eqn:E; [|constructor].
    apply ValidatorFacts.arrayIncludes_In in E. simpl in E.
    destruct E as [<- | [<- | [<- | [<- | []]]]];
      (constructor; [reflexivity | constructor]).
Qed.

Lemma explainOptionsStr_chars (validatedInput : ExplainInput) :
  allChars optionChar (explainOptionsStr validatedInput) = true.
Proof.
  unfold explainOptionsStr. destruct (0 <? _)%nat; [|reflexivity].
  rewrite !allChars_app, allChars_join;
    [reflexivity | reflexivity | apply explainOptions_chars].
Qed.

Section Tool.

Context {Row RawInput : Type}.
Variable validateExplainInput : RawInput -> ExplainInput + string.
Variable poolQuery : GatewayCall -> QueryResult Row + Thrown.

(** X16.  The safety check of the EXPLAIN tool is a substring search over
    the whole uppercased text: a text in which INSERT, UPDATE, DELETE,
    DROP, CREATE, ALTER or TRUNCATE occurs anywhere, also inside a longer
    word, is refused, and nothing is sent to the gateway. *)
Theorem explain_refuses_texts_with_write_keywords
    (input : RawInput) (validatedInput : ExplainInput) (keyword : string) :
  validateExplainInput input = inl validatedInput ->
  In keyword ["INSERT"; "UPDATE"; "DELETE"; "DROP"; "CREATE"; "ALTER"; "TRUNCATE"] ->
  includes (toUpperCase (exSql validatedInput)) keyword = true ->
  explainQueryTool validateExplainInput poolQuery input =
  (mkExplainOutput None
     (Some "EXPLAIN is only allowed for SELECT queries and read-only operations"),
   []).
Proof.
  intros Hin Hk Hinc. unfold explainQueryTool. rewrite Hin.
  replace (explainForbidden (exSql validatedInput)) with true; [reflexivity|].
  symmetry. rewrite explainForbidden_whole_text. apply existsb_exists.
  now exists keyword.
Qed.

(** X17.  Whatever the EXPLAIN tool sends to the gateway is one statement
    without parameters: the word EXPLAIN, an option list made of letters,
    spaces, commas and parentheses only, and the text of the request as
    it came, in which none of the seven keywords occurs. *)
Theorem explain_sends_only_explain_statements
    (input : RawInput) (call : GatewayCall) :
  In call (snd (explainQueryTool validateExplainInput poolQuery input)) ->
  exists validatedInput,
    validateExplainInput input = inl validatedInput /\
    snd (explainQueryTool validateExplainInput poolQuery input) = [call] /\
    call = ("EXPLAIN " ++ explainOptionsStr validatedInput ++ " " ++
            exSql validatedInput, None) /\
    allChars optionChar (explainOptionsStr validatedInput) = true /\
    forall keyword,
      In keyword ["INSERT"; "UPDATE"; "DELETE"; "DROP"; "CREATE"; "ALTER"; "TRUNCATE"] ->
      includes (toUpperCase (exSql validatedInput)) keyword = false.
Proof.
  unfold explainQueryTool.
  destruct (validateExplainInput input) as [vi | msg]; [|intros []].
  destruct (explainForbidden (exSql vi)) eqn:Hf; [intros []|].
  intros Hcall. exists vi.
  assert (Hc : call = (explainSql vi, None)).
  { destruct (poolQuery _); destruct Hcall as [<- | []]; reflexivity. }
  subst call. repeat split.
  - now destruct (poolQuery _).
  - apply explainOptionsStr_chars.
  - intros keyword Hk. rewrite explainForbidden_whole_text in Hf.
    destruct (includes (toUpperCase (exSql vi)) keyword) eqn:E; [|reflexivity].
    assert (Ht : existsb (includes (toUpperCase (exSql vi)))
                   ["INSERT"; "UPDATE"; "DELETE"; "DROP"; "CREATE"; "ALTER"; "TRUNCATE"]
                 = true) by (apply existsb_exists; now exists keyword).
    congruence.
Qed.

End Tool.

Lemma explain_refuses_witness :
  explainQueryTool exampleValidateExplain examplePool
    (mkExplainInput "SELECT created_at FROM users" None None None None) =
  (mkExplainOutput None
     (Some "EXPLAIN is only allowed for SELECT queries and read-only operations"),
   []).
Proof.
  apply (explain_refuses_texts_with_write_keywords
           exampleValidateExplain examplePool
           (mkExplainInput "SELECT created_at FROM users" None None None None)
           (mkExplainInput "SELECT created_at FROM users" None None None None)
           "CREATE").
  - reflexivity.
  - simpl. tauto.
  - reflexivity.
Defined.

Lemma explain_sends_witness :
  snd (explainQueryTool exampleValidateExplain examplePool
         (mkExplainInput "SELECT 1" (Some true) None None (Some "json; DROP"))) =
  [("EXPLAIN (ANALYZE true, COSTS true) SELECT 1", None)].
Proof.
  destruct (explain_sends_only_explain_statements
              exampleValidateExplain examplePool
              (mkExplainInput "SELECT 1" (Some true) None None (Some "json; DROP"))
              ("EXPLAIN (ANALYZE true, COSTS true) SELECT 1", None))
    as [vi [_ [H _]]].
  - left. reflexivity.
  - exact H.
Defined.

End ExplainFacts.

(** ** The allowed hosts of the HTTP server *)

Module HostFacts.

Import Js JsFacts PaginationFacts PaginationCoverage.

Lemma splitOn_not_nil (sep : ascii) (s : string) : splitOn sep s <> [].
Proof.
  destruct s as [|c r]; simpl; [discriminate|].
  destruct (Ascii.eqb c sep); [discriminate|].
  destruct (splitOn sep r); discriminate.
Qed.

Lemma splitOn_length (sep : ascii) (s : string) :
  List.length (splitOn sep s) = S (countChar sep s).
Proof.
  induction s as [|c r IH]; simpl; [reflexivity|].
  destruct (Ascii.eqb c sep); simpl; [now rewrite IH|].
  destruct (splitOn sep r); [discriminate | exact IH].
Qed.

Lemma splitOn_pieces (sep : ascii) (s : string) :
  Forall (fun piece => countChar sep piece = 0%nat) (splitOn sep s).
Proof.
  induction s as [|c r IH]; simpl; [now repeat constructor|].
  destruct (Ascii.eqb c sep) eqn:E; [now constructor|].
  destruct (splitOn sep r) as [|w ws].
  - constructor; [|constructor]. simpl. now rewrite E.
  - inversion IH as [|? ? Hw Hws]; subst. constructor; [|exact Hws].
    simpl. now rewrite E.
Qed.

(** Joining the pieces with the separator gives the text back. *)
Lemma join_splitOn (sep : ascii) (s : string) :
  join (String sep EmptyString) (splitOn sep s) = s.
Proof.
  induction s as [|c r IH]; [reflexivity|]. cbn [splitOn].
  destruct (Ascii.eqb_spec c sep) as [-> | Hne].
  - pose proof (splitOn_not_nil sep r) as Hnil.
    destruct (splitOn sep r) as [|w ws]; [contradiction|].
    change (join (String sep EmptyString) (EmptyString :: w :: ws))
      with (String sep (join (String sep EmptyString) (w :: ws))).
    now rewrite IH.
  - pose proof (splitOn_not_nil sep r) as Hnil.
    destruct (splitOn sep r) as [|w ws]; [contradiction|].
    rewrite <- IH. now destruct ws.
Qed.

Lemma countChar_app (c : ascii) (a b : string) :
  countChar c (a ++ b) = (countChar c a + countChar c b)%nat.
Proof.
  induction a as [|x a IH]; simpl; [reflexivity|]. rewrite IH. lia.
Qed.

Lemma countChar_trim (c : ascii) (s : string) :
  countChar c s = 0%nat -> countChar c (trim s) = 0%nat.
Proof.
  intros H. unfold trim.
  destruct (dropStart_split isWhiteSpace s) as [pre [Hs _]].
  destruct (dropEnd_split isWhiteSpace (dropStart isWhiteSpace s)) as [post [Ht _]].
  rewrite Hs, Ht, !countChar_app in H. lia.
Qed.

(** X18.  The list of allowed hosts is undefined exactly when the variable
    is unset or empty.  Otherwise its entries are the pieces of the
    variable between the commas, in order and trimmed: one more entry than
    there are commas, none with a comma or with white space at either
    end, empty entries included. *)
Theorem allowed_hosts_are_the_trimmed_pieces (allowedHostsEnv : option string) :
  match allowedHosts allowedHostsEnv with
  | None => allowedHostsEnv = None \/ allowedHostsEnv = Some EmptyString
  | Some hosts =>
      exists s pieces,
        allowedHostsEnv = Some s /\ s <> EmptyString /\
        join "," pieces = s /\
        hosts = map trim pieces /\
        List.length hosts = S (countChar "," s) /\
        Forall (fun host => trim host = host /\ countChar "," host = 0%nat) hosts
  end.
Proof.
  unfold allowedHosts. destruct allowedHostsEnv as [s|]; [|now left].
  destruct s as [|c r]; [now right|]. cbn [truthyString].
  exists (String c r), (splitOn "," (String c r)). repeat split.
  - discriminate.
  - apply join_splitOn.
  - now rewrite length_map, splitOn_length.
  - apply Forall_map. eapply Forall_impl; [|apply (splitOn_pieces ",")].
    intros piece Hp. split; [apply trim_idempotent | now apply countChar_trim].
Qed.

End HostFacts.
